(** * MajSoulTeacher: the recommendation decoder and the prompt composer
    of [llm/reasoning.py], over a shallow embedding of the Python values
    they handle. *)

From Stdlib Require Import ZArith String Ascii List Bool Lia.
From Stdlib Require Import Floats.SpecFloat Sorting.Permutation.
Import ListNotations.

Local Open Scope string_scope.
Local Open Scope Z_scope.

(** ** Decimal text of integers and naturals *)

Module Digits.

Definition digit_char (d : Z) : ascii := ascii_of_nat (48 + Z.to_nat d).

(** Decimal digits of a non-negative [n]; [fuel] bounds the digit count. *)
Fixpoint digits_aux (fuel : nat) (n : Z) (acc : string) : string :=
  match fuel with
  | O => acc
  | S f =>
      let acc' := String (digit_char (n mod 10)) acc in
      if n <? 10 then acc' else digits_aux f (n / 10) acc'
  end.

Definition of_nonneg (n : Z) : string :=
  digits_aux (S (Z.to_nat (Z.log2 n))) n "".

(** [str(n)] for a Python int. *)
Definition of_Z (n : Z) : string :=
  if n <? 0 then "-" ++ of_nonneg (- n) else of_nonneg n.

(** Number of decimal digits of a positive integer. *)
Definition count (n : Z) : Z := Z.of_nat (String.length (of_nonneg n)).

Fixpoint zeros (n : nat) : string :=
  match n with O => "" | S k => String "0" (zeros k) end.

End Digits.

(** ** IEEE binary64, the representation of a Python float *)

Module PyFloat.

Definition prec : Z := 53.
Definition emax : Z := 1024.

Definition t := spec_float.

Definition normalize (m e : Z) (szero : bool) : t :=
  binary_normalize prec emax m e szero.

(** [float(n)] for an int [n], correctly rounded; an infinity here is
    CPython's OverflowError. *)
Definition of_Z (n : Z) : t := normalize n 0 false.

Definition zero : t := S754_zero false.

(** The float nearest to [(-1)^neg * n / d] ([n >= 0], [d > 0]), rounded
    to nearest even: the quotient is taken with at least 55 bits and the
    remainder folded into a sticky bit below the rounding position. *)
Definition of_ratio (neg : bool) (n d : Z) : t :=
  if n =? 0 then S754_zero neg else
  let k := Z.max 0 (56 + Z.log2 d - Z.log2 n) in
  let q := (n * 2 ^ k) / d in
  let r := (n * 2 ^ k) mod d in
  let m := 2 * q + (if r =? 0 then 0 else 1) in
  normalize (if neg then - m else m) (- (k + 1)) neg.

(** The float nearest to [(-1)^neg * mant * 10^e10]. *)
Definition of_decimal (neg : bool) (mant e10 : Z) : t :=
  if 0 <=? e10 then of_ratio neg (mant * 10 ^ e10) 1
  else of_ratio neg mant (10 ^ (- e10)).

Definition mul := SFmul prec emax.
Definition sub := SFsub prec emax.
Definition add := SFadd prec emax.
Definition ltb := SFltb.
Definition leb := SFleb.

Definition eqb_struct (x y : t) : bool :=
  match x, y with
  | S754_zero a, S754_zero b => Bool.eqb a b
  | S754_infinity a, S754_infinity b => Bool.eqb a b
  | S754_nan, S754_nan => true
  | S754_finite a m e, S754_finite b m' e' =>
      Bool.eqb a b && Pos.eqb m m' && Z.eqb e e'
  | _, _ => false
  end.

(** [a * 2^e] rounded to an integer, ties to even ([a >= 0]). *)
Definition round_half_even (a e : Z) : Z :=
  if 0 <=? e then a * 2 ^ e else
  let d := 2 ^ (- e) in
  let q := a / d in
  let r := a mod d in
  match Z.compare (2 * r) d with
  | Lt => q
  | Gt => q + 1
  | Eq => if Z.even q then q else q + 1
  end.

(** [format(x, '.1f')]: the exact binary value rounded to one decimal. *)
Definition fixed1 (x : t) : string :=
  match x with
  | S754_nan => "nan"
  | S754_infinity s => if s then "-inf" else "inf"
  | S754_zero s => if s then "-0.0" else "0.0"
  | S754_finite s m e =>
      let n := round_half_even (Z.pos m * 10) e in
      (if s then "-" else "") ++ Digits.of_nonneg (n / 10) ++ "."
        ++ Digits.of_nonneg (n mod 10)
  end.

(** [a / b] rounded to an integer, ties to even ([a >= 0], [b > 0]). *)
Definition div_round (a b : Z) : Z :=
  let q := a / b in
  let r := a mod b in
  match Z.compare (2 * r) b with
  | Lt => q
  | Gt => q + 1
  | Eq => if Z.even q then q else q + 1
  end.

(** Decimal exponent [E] of the positive rational [num/den]:
    [10^E <= num/den < 10^(E+1)]. *)
Definition dec_exp (num den : Z) : Z :=
  if den <=? num then Digits.count (num / den) - 1
  else
    let k0 := Digits.count den - Digits.count num in
    if den <=? num * 10 ^ k0 then - k0 else - (k0 + 1).

(** The [p]-significant-digit decimals around [num/den]: the nearest
    one first, then its other neighbour, as [(digits, exponent)]. *)
Definition candidates (num den p : Z) : list (Z * Z) :=
  let t10 := dec_exp num den - p + 1 in
  let '(a, b) := if 0 <=? t10 then (num, den * 10 ^ t10)
                 else (num * 10 ^ (- t10), den) in
  let near := div_round a b in
  let fl := a / b in
  let other := if near =? fl then fl + 1 else fl in
  [(near, t10); (other, t10)].

Fixpoint first_roundtrip (neg : bool) (x : t) (cs : list (Z * Z))
  : option (Z * Z) :=
  match cs with
  | [] => None
  | (d, e) :: r =>
      if eqb_struct (of_decimal neg d e) x then Some (d, e)
      else first_roundtrip neg x r
  end.

(** Shortest digit string (1 to 17 significant digits) that reads back
    as [x], as CPython's [repr] chooses it. *)
Fixpoint shortest (neg : bool) (x : t) (num den : Z) (p : Z) (fuel : nat)
  : Z * Z :=
  match fuel with
  | O => (0, 0)
  | S f =>
      match first_roundtrip neg x (candidates num den p) with
      | Some de => de
      | None => shortest neg x num den (p + 1) f
      end
  end.

Fixpoint strip_zeros (d e : Z) (fuel : nat) : Z * Z :=
  match fuel with
  | O => (d, e)
  | S f => if (0 <? d) && (d mod 10 =? 0) then strip_zeros (d / 10) (e + 1) f
           else (d, e)
  end.

(** Layout of [repr]: positional when the decimal point position
    [decpt] lies in [-3, 16], exponent notation otherwise. *)
Definition layout (ds : string) (decpt : Z) : string :=
  let n := Z.of_nat (String.length ds) in
  if (decpt <=? -4) || (16 <? decpt) then
    let ex := decpt - 1 in
    let exs := Digits.of_nonneg (Z.abs ex) in
    String.substring 0 1 ds
      ++ (if 1 <? n then "." ++ String.substring 1 (String.length ds - 1) ds
          else "")
      ++ "e" ++ (if ex <? 0 then "-" else "+")
      ++ (if Z.abs ex <? 10 then "0" else "") ++ exs
  else if decpt <=? 0 then
    "0." ++ Digits.zeros (Z.to_nat (- decpt)) ++ ds
  else if decpt <? n then
    String.substring 0 (Z.to_nat decpt) ds ++ "."
      ++ String.substring (Z.to_nat decpt) (String.length ds - Z.to_nat decpt) ds
  else ds ++ Digits.zeros (Z.to_nat (decpt - n)) ++ ".0".

(** [repr(x)] (which is also [str(x)]) for a float. *)
Definition repr (x : t) : string :=
  match x with
  | S754_nan => "nan"
  | S754_infinity s => if s then "-inf" else "inf"
  | S754_zero s => if s then "-0.0" else "0.0"
  | S754_finite s m e =>
      let '(num, den) := if 0 <=? e then (Z.pos m * 2 ^ e, 1)
                         else (Z.pos m, 2 ^ (- e)) in
      let '(d, ex) := shortest s x num den 1 17 in
      let '(d', ex') := strip_zeros d ex 20 in
      let ds := Digits.of_nonneg d' in
      (if s then "-" else "") ++ layout ds (Z.of_nat (String.length ds) + ex')
  end.

End PyFloat.

(** ** Python values *)

(** The values the decoder and the composer receive or build.  A dict is its
    item list in insertion order (keys distinct, as in a Python dict); an
    object of another class carries its class name and its attributes, which
    is what [getattr] reads. *)
#[local] Set Warnings "-register-all".
Inductive pyval : Type :=
| PNone
| PBool (b : bool)
| PInt (z : Z)
| PFloat (f : PyFloat.t)
| PStr (s : string)
| PList (l : list pyval)
| PTuple (l : list pyval)
| PDict (kv : list (pyval * pyval))
| PObj (cls : string) (attrs : list (string * pyval)).

(** Raised exceptions: the class and the message [str(e)] gives. *)
Inductive exc_class := TypeError | ValueError | IndexError | KeyError
                     | OverflowError.

Inductive result (A : Type) : Type :=
| Ok (a : A)
| Err (c : exc_class) (msg : string).
Arguments Ok {A} a.
Arguments Err {A} c msg.

Definition bind {A B} (m : result A) (k : A -> result B) : result B :=
  match m with Ok a => k a | Err c s => Err c s end.

Notation "x <- m ;; k" := (bind m (fun x => k))
  (at level 61, m at next level, right associativity).

(** [try: m except Exception: h] *)
Definition try_except {A} (m : result A) (h : exc_class -> string -> A) : A :=
  match m with Ok a => a | Err c s => h c s end.

Fixpoint mapM {A B} (f : A -> result B) (l : list A) : result (list B) :=
  match l with
  | [] => Ok []
  | x :: r => y <- f x ;; ys <- mapM f r ;; Ok (y :: ys)
  end.

Definition chr (n : nat) : string := String (ascii_of_nat n) "".
Definition dquote : string := chr 34.
Definition squote : string := chr 39.
Definition bslash : string := chr 92.
Definition newline : string := chr 10.

Definition type_name (v : pyval) : string :=
  match v with
  | PNone => "NoneType" | PBool _ => "bool" | PInt _ => "int"
  | PFloat _ => "float" | PStr _ => "str" | PList _ => "list"
  | PTuple _ => "tuple" | PDict _ => "dict" | PObj c _ => c
  end.

(** Truth value, as [if v:] and [not v] test it. *)
Definition py_truthy (v : pyval) : bool :=
  match v with
  | PNone => false
  | PBool b => b
  | PInt z => negb (z =? 0)
  | PFloat (S754_zero _) => false
  | PFloat _ => true
  | PStr s => negb (String.eqb s "")
  | PList l | PTuple l => match l with [] => false | _ => true end
  | PDict kv => match kv with [] => false | _ => true end
  | PObj _ _ => true
  end.

(** *** Text: code points of a UTF-8 string, [repr] and [str] *)

Definition is_cont_byte (c : ascii) : bool :=
  let n := nat_of_ascii c in (128 <=? n)%nat && (n <? 192)%nat.

(** Splits off the continuation bytes at the front of [s]. *)
Fixpoint split_cont (s : string) : string * string :=
  match s with
  | String c r =>
      if is_cont_byte c then let '(a, b) := split_cont r in (String c a, b)
      else ("", s)
  | EmptyString => ("", "")
  end.

Fixpoint chars_fuel (fuel : nat) (s : string) : list string :=
  match fuel, s with
  | S f, String c r =>
      let '(tl, rest) := split_cont r in String c tl :: chars_fuel f rest
  | _, _ => []
  end.

(** The one-character strings a Python [str] is made of. *)
Definition py_chars (s : string) : list string := chars_fuel (String.length s) s.

Definition hex_digit (n : nat) : string :=
  if (n <? 10)%nat then chr (48 + n) else chr (87 + n).

Definition escape_char (q : string) (c : ascii) : string :=
  let n := nat_of_ascii c in
  if String.eqb (String c "") bslash then bslash ++ bslash
  else if String.eqb (String c "") q then bslash ++ q
  else if (n =? 10)%nat then bslash ++ "n"
  else if (n =? 13)%nat then bslash ++ "r"
  else if (n =? 9)%nat then bslash ++ "t"
  else if (n <? 32)%nat || (n =? 127)%nat then
    bslash ++ "x" ++ hex_digit (n / 16) ++ hex_digit (n mod 16)
  else String c "".

Fixpoint escape (q : string) (s : string) : string :=
  match s with
  | EmptyString => ""
  | String c r => escape_char q c ++ escape q r
  end.

Definition contains_char (s c : string) : bool :=
  match String.index 0 c s with Some _ => true | None => false end.

(** [repr] of a str: single quotes unless the text has a single quote and
    no double quote; ASCII control characters escaped.  Non-ASCII
    characters are taken to be printable and kept. *)
Definition str_repr (s : string) : string :=
  let q := if contains_char s squote && negb (contains_char s dquote)
           then dquote else squote in
  q ++ escape q s ++ q.

Fixpoint py_repr (v : pyval) : string :=
  let fix reprs (l : list pyval) : list string :=
      match l with [] => [] | x :: r => py_repr x :: reprs r end in
  let fix items (l : list (pyval * pyval)) : list string :=
      match l with
      | [] => []
      | (k, x) :: r => (py_repr k ++ ": " ++ py_repr x) :: items r
      end in
  match v with
  | PNone => "None"
  | PBool b => if b then "True" else "False"
  | PInt z => Digits.of_Z z
  | PFloat f => PyFloat.repr f
  | PStr s => str_repr s
  | PList l => "[" ++ String.concat ", " (reprs l) ++ "]"
  | PTuple [x] => "(" ++ py_repr x ++ ",)"
  | PTuple l => "(" ++ String.concat ", " (reprs l) ++ ")"
  | PDict kv => "{" ++ String.concat ", " (items kv) ++ "}"
  | PObj c _ => "<" ++ c ++ " object>"  (* CPython adds the address *)
  end.

(** [str(v)], also what an f-string replacement field [{v}] renders. *)
Definition py_str (v : pyval) : string :=
  match v with PStr s => s | _ => py_repr v end.

(** *** Numbers: comparison and arithmetic across bool, int and float *)

Inductive num := NI (z : Z) | NF (f : PyFloat.t).

Definition as_num (v : pyval) : option num :=
  match v with
  | PBool b => Some (NI (if b then 1 else 0))
  | PInt z => Some (NI z)
  | PFloat f => Some (NF f)
  | _ => None
  end.

(** Exact comparison of an int with a float ([None] against a NaN). *)
Definition int_float_cmp (z : Z) (f : PyFloat.t) : option comparison :=
  match f with
  | S754_nan => None
  | S754_infinity s => Some (if s then Gt else Lt)
  | S754_zero _ => Some (Z.compare z 0)
  | S754_finite s m e =>
      let v := if s then Z.neg m else Z.pos m in
      if 0 <=? e then Some (Z.compare z (v * 2 ^ e))
      else Some (Z.compare (z * 2 ^ (- e)) v)
  end.

Definition num_cmp (a b : num) : option comparison :=
  match a, b with
  | NI x, NI y => Some (Z.compare x y)
  | NF x, NF y => SFcompare x y
  | NI x, NF f => int_float_cmp x f
  | NF f, NI x => option_map CompOpp (int_float_cmp x f)
  end.

(** [a == b] *)
Fixpoint py_eq (a b : pyval) : bool :=
  let fix eq_list (l m : list pyval) : bool :=
      match l, m with
      | [], [] => true
      | x :: l', y :: m' => py_eq x y && eq_list l' m'
      | _, _ => false
      end in
  let fix find_item (k x : pyval) (m : list (pyval * pyval)) : bool :=
      match m with
      | [] => false
      | (k', x') :: m' => (py_eq k k' && py_eq x x') || find_item k x m'
      end in
  let fix incl_items (l : list (pyval * pyval)) (m : list (pyval * pyval))
    : bool :=
      match l with
      | [] => true
      | (k, x) :: l' => find_item k x m && incl_items l' m
      end in
  match as_num a, as_num b with
  | Some x, Some y =>
      match num_cmp x y with Some Eq => true | _ => false end
  | _, _ =>
      match a, b with
      | PNone, PNone => true
      | PStr x, PStr y => String.eqb x y
      | PList l, PList m | PTuple l, PTuple m => eq_list l m
      | PDict l, PDict m =>
          Nat.eqb (List.length l) (List.length m) && incl_items l m
      (* objects compare by identity, which values do not carry: two
         objects are taken to be distinct *)
      | _, _ => false
      end
  end.

Definition lt_unsupported {A} (a b : pyval) : result A :=
  Err TypeError ("'<' not supported between instances of " ++ str_repr (type_name a)
                   ++ " and " ++ str_repr (type_name b)).

(** [a < b]: numbers, strs (code point order, which is UTF-8 byte order),
    and lists or tuples lexicographically; a TypeError otherwise. *)
Fixpoint py_lt (a b : pyval) : result bool :=
  let fix lex (l m : list pyval) : result bool :=
      match l, m with
      | [], [] => Ok false
      | [], _ :: _ => Ok true
      | _ :: _, [] => Ok false
      | x :: l', y :: m' => if py_eq x y then lex l' m' else py_lt x y
      end in
  match as_num a, as_num b with
  | Some x, Some y =>
      Ok (match num_cmp x y with Some Lt => true | _ => false end)
  | _, _ =>
      match a, b with
      | PStr x, PStr y => Ok (String.ltb x y)
      | PList l, PList m | PTuple l, PTuple m => lex l m
      | _, _ => lt_unsupported a b
      end
  end.

Fixpoint py_hashable (v : pyval) : bool :=
  match v with
  | PList _ | PDict _ => false
  | PTuple l => forallb py_hashable l
  | _ => true
  end.

Definition unhashable {A} (v : pyval) : result A :=
  Err TypeError ("unhashable type: " ++ str_repr (type_name v)).

Fixpoint assoc_find (k : pyval) (kv : list (pyval * pyval)) : option pyval :=
  match kv with
  | [] => None
  | (k', x) :: r => if py_eq k k' then Some x else assoc_find k r
  end.

(** [k in d] and [d.get(k)] for a dict's items. *)
Definition dict_lookup (kv : list (pyval * pyval)) (k : pyval)
  : result (option pyval) :=
  if py_hashable k then Ok (assoc_find k kv) else unhashable k.

(** [d.get(k, default)] for a dict whose keys are strs (the module's
    lookup tables): a key of another type is never equal to a str. *)
Definition table_get (tbl : list (string * string)) (k : pyval)
  : result (option string) :=
  if py_hashable k then
    Ok (match k with
        | PStr s => option_map snd (find (fun kv => String.eqb (fst kv) s) tbl)
        | _ => None
        end)
  else unhashable k.

(** Lookup of a str key, which is always hashable. *)
Definition str_key_get (kv : list (pyval * pyval)) (k : string) : option pyval :=
  assoc_find (PStr k) kv.

Definition str_key_in (kv : list (pyval * pyval)) (k : string) : bool :=
  match str_key_get kv k with Some _ => true | None => false end.

(** *** Containers: iteration, [len], [v[i]] *)

Definition py_iter (v : pyval) : result (list pyval) :=
  match v with
  | PList l | PTuple l => Ok l
  | PStr s => Ok (map PStr (py_chars s))
  | PDict kv => Ok (map fst kv)
  | _ => Err TypeError (str_repr (type_name v) ++ " object is not iterable")
  end.

Definition py_len (v : pyval) : result Z :=
  match v with
  | PList l | PTuple l => Ok (Z.of_nat (List.length l))
  | PStr s => Ok (Z.of_nat (List.length (py_chars s)))
  | PDict kv => Ok (Z.of_nat (List.length kv))
  | _ => Err TypeError ("object of type " ++ str_repr (type_name v)
                          ++ " has no len()")
  end.

Definition seq_index {A} (what : string) (l : list A) (i : Z) : result A :=
  let n := Z.of_nat (List.length l) in
  let j := if i <? 0 then n + i else i in
  if (j <? 0) || (n <=? j) then Err IndexError (what ++ " index out of range")
  else match nth_error l (Z.to_nat j) with
       | Some x => Ok x
       | None => Err IndexError (what ++ " index out of range")
       end.

(** [v[i]] for an int [i]. *)
Definition py_getitem (v : pyval) (i : Z) : result pyval :=
  match v with
  | PList l => seq_index "list" l i
  | PTuple l => seq_index "tuple" l i
  | PStr s => x <- seq_index "string" (py_chars s) i ;; Ok (PStr x)
  | PDict kv =>
      match assoc_find (PInt i) kv with
      | Some x => Ok x
      | None => Err KeyError (Digits.of_Z i)
      end
  | _ => Err TypeError (str_repr (type_name v) ++ " object is not subscriptable")
  end.

(** [sep.join(items)]: every item must be a str. *)
Definition py_join (sep : string) (items : list pyval) : result string :=
  let fix go (i : Z) (l : list pyval) : result (list string) :=
      match l with
      | [] => Ok []
      | PStr s :: r => rest <- go (i + 1) r ;; Ok (s :: rest)
      | x :: _ => Err TypeError ("sequence item " ++ Digits.of_Z i
                                   ++ ": expected str instance, "
                                   ++ type_name x ++ " found")
      end in
  ss <- go 0 items ;; Ok (String.concat sep ss).

(** *** [float()] and [int()] *)

Module Lit.

Definition code (c : ascii) : nat := nat_of_ascii c.
Definition is_space (c : ascii) : bool :=
  let n := code c in ((9 <=? n)%nat && (n <=? 13)%nat) || (n =? 32)%nat.
Definition is_digit (c : ascii) : bool :=
  let n := code c in (48 <=? n)%nat && (n <=? 57)%nat.
Definition digit_val (c : ascii) : Z := Z.of_nat (code c - 48).
Definition lower (c : ascii) : ascii :=
  let n := code c in
  if (65 <=? n)%nat && (n <=? 90)%nat then ascii_of_nat (n + 32) else c.

Definition strip (l : list ascii) : list ascii :=
  let fix drop (l : list ascii) :=
      match l with c :: r => if is_space c then drop r else l | [] => [] end in
  rev (drop (rev (drop l))).

Definition sign (l : list ascii) : bool * list ascii :=
  match l with
  | c :: r => if (code c =? 45)%nat then (true, r)
              else if (code c =? 43)%nat then (false, r) else (false, l)
  | [] => (false, [])
  end.

(** After a digit: more digits, each possibly preceded by one ['_']. *)
Fixpoint more_digits (l : list ascii) : list Z * list ascii :=
  match l with
  | c :: r =>
      if is_digit c then let '(ds, rest) := more_digits r in (digit_val c :: ds, rest)
      else if (code c =? 95)%nat then
        match r with
        | d :: r' => if is_digit d then
                       let '(ds, rest) := more_digits r' in (digit_val d :: ds, rest)
                     else ([], l)
        | [] => ([], l)
        end
      else ([], l)
  | [] => ([], [])
  end.

(** [digitpart ::= digit (["_"] digit)*] *)
Definition digitpart (l : list ascii) : option (list Z * list ascii) :=
  match l with
  | c :: r => if is_digit c then let '(ds, rest) := more_digits r in
                                Some (digit_val c :: ds, rest)
              else None
  | [] => None
  end.

Definition digits_value (ds : list Z) : Z := fold_left (fun acc d => acc * 10 + d) ds 0.

Definition lowered (l : list ascii) : string := string_of_list_ascii (map lower l).

(** The float a decimal [(-1)^neg * mant * 10^e10] reads as; exponents
    far outside the float range go straight to infinity or zero. *)
Definition decimal_float (neg : bool) (mant e10 : Z) : PyFloat.t :=
  if mant =? 0 then S754_zero neg
  else if 309 <=? Digits.count mant - 1 + e10 then S754_infinity neg
  else if Digits.count mant + e10 <? -330 then S754_zero neg
  else PyFloat.of_decimal neg mant e10.

(** The text [float(s)] accepts, after stripping whitespace. *)
Definition float_lit (l : list ascii) : option PyFloat.t :=
  let '(neg, r) := sign l in
  let w := lowered r in
  if String.eqb w "inf" || String.eqb w "infinity" then Some (S754_infinity neg)
  else if String.eqb w "nan" then Some S754_nan
  else
    let '(ip, r1) := match digitpart r with Some p => p | None => ([], r) end in
    let '(fp, r2) :=
      match r1 with
      | c :: r' => if (code c =? 46)%nat then
                     match digitpart r' with Some p => p | None => ([], r') end
                   else ([], r1)
      | [] => ([], [])
      end in
    match (ip ++ fp)%list with
    | [] => None
    | _ =>
      let ex :=
        match r2 with
        | [] => Some 0
        | c :: r' =>
            if (code (lower c) =? 101)%nat then
              let '(eneg, r'') := sign r' in
              match digitpart r'' with
              | Some (eds, []) =>
                  Some (if eneg then - digits_value eds else digits_value eds)
              | _ => None
              end
            else None
        end in
      match ex with
      | Some x => Some (decimal_float neg (digits_value (ip ++ fp)%list)
                                      (x - Z.of_nat (List.length fp)))
      | None => None
      end
    end.

(** The text [int(s)] accepts, after stripping whitespace. *)
Definition int_lit (l : list ascii) : option Z :=
  let '(neg, r) := sign l in
  match digitpart r with
  | Some (ds, []) => Some (if neg then - digits_value ds else digits_value ds)
  | _ => None
  end.

End Lit.

Definition is_inf (f : PyFloat.t) : bool :=
  match f with S754_infinity _ => true | _ => false end.

(** [float(v)] *)
Definition py_float (v : pyval) : result PyFloat.t :=
  match v with
  | PBool b => Ok (PyFloat.of_Z (if b then 1 else 0))
  | PInt z => let f := PyFloat.of_Z z in
              if is_inf f then Err OverflowError "int too large to convert to float"
              else Ok f
  | PFloat f => Ok f
  | PStr s =>
      match Lit.float_lit (Lit.strip (list_ascii_of_string s)) with
      | Some f => Ok f
      | None => Err ValueError ("could not convert string to float: " ++ str_repr s)
      end
  | _ => Err TypeError ("float() argument must be a string or a real number, not "
                          ++ str_repr (type_name v))
  end.

(** [int(v)] *)
Definition py_int (v : pyval) : result Z :=
  match v with
  | PBool b => Ok (if b then 1 else 0)
  | PInt z => Ok z
  | PFloat S754_nan => Err ValueError "cannot convert float NaN to integer"
  | PFloat (S754_infinity _) =>
      Err OverflowError "cannot convert float infinity to integer"
  | PFloat (S754_zero _) => Ok 0
  | PFloat (S754_finite s m e) =>
      let a := if 0 <=? e then Z.pos m * 2 ^ e else Z.pos m / 2 ^ (- e) in
      Ok (if s then - a else a)
  | PStr s =>
      match Lit.int_lit (Lit.strip (list_ascii_of_string s)) with
      | Some z => Ok z
      | None => Err ValueError ("invalid literal for int() with base 10: " ++ str_repr s)
      end
  | _ => Err TypeError ("int() argument must be a string, a bytes-like object or a real number, not "
                          ++ str_repr (type_name v))
  end.

Definition num_to_float (n : num) : result PyFloat.t :=
  match n with
  | NI z => py_float (PInt z)
  | NF f => Ok f
  end.

Definition binop (sym : string) (zop : Z -> Z -> Z)
  (fop : PyFloat.t -> PyFloat.t -> PyFloat.t) (a b : pyval) : result pyval :=
  match as_num a, as_num b with
  | Some (NI x), Some (NI y) => Ok (PInt (zop x y))
  | Some x, Some y =>
      fx <- num_to_float x ;; fy <- num_to_float y ;; Ok (PFloat (fop fx fy))
  | _, _ => Err TypeError ("unsupported operand type(s) for " ++ sym ++ ": "
                             ++ str_repr (type_name a) ++ " and "
                             ++ str_repr (type_name b))
  end.

(** [a - b] and [a + b] *)
Definition py_sub := binop "-" Z.sub PyFloat.sub.
Definition py_add := binop "+" Z.add PyFloat.add.

(** *** [sorted(l, key=key, reverse=True)]

    Keys are computed first, in order; the sort is stable, so items with
    equal keys keep their order.  It is taken as an insertion sort: an item
    goes before the first placed item whose key is less than its own.  It
    raises when one of the comparisons it makes raises. *)

Fixpoint insert_desc (x kx : pyval) (acc : list (pyval * pyval))
  : result (list (pyval * pyval)) :=
  match acc with
  | [] => Ok [(x, kx)]
  | (y, ky) :: r =>
      lt <- py_lt ky kx ;;
      if lt then Ok ((x, kx) :: acc)
      else r' <- insert_desc x kx r ;; Ok ((y, ky) :: r')
  end.

Fixpoint insert_all (l acc : list (pyval * pyval)) : result (list (pyval * pyval)) :=
  match l with
  | [] => Ok acc
  | (x, k) :: r => acc' <- insert_desc x k acc ;; insert_all r acc'
  end.

Definition py_sorted_desc (key : pyval -> result pyval) (l : list pyval)
  : result (list pyval) :=
  ks <- mapM key l ;;
  s <- insert_all (combine l ks) [] ;;
  Ok (map fst s).

(** ** [llm/reasoning.py]: tables and rendering helpers *)

(** [MJAI_TILE_2_NL]: tile code to its Chinese name. *)
Definition MJAI_TILE_2_NL : list (string * string) := [
  ("1m", "一万"); ("2m", "二万"); ("3m", "三万"); ("4m", "四万");
  ("5mr", "红五万"); ("5m", "五万"); ("6m", "六万"); ("7m", "七万");
  ("8m", "八万"); ("9m", "九万"); ("1p", "一饼"); ("2p", "二饼");
  ("3p", "三饼"); ("4p", "四饼"); ("5pr", "红五饼"); ("5p", "五饼");
  ("6p", "六饼"); ("7p", "七饼"); ("8p", "八饼"); ("9p", "九饼");
  ("1s", "一索"); ("2s", "二索"); ("3s", "三索"); ("4s", "四索");
  ("5sr", "红五索"); ("5s", "五索"); ("6s", "六索"); ("7s", "七索");
  ("8s", "八索"); ("9s", "九索"); ("E", "东"); ("S", "南");
  ("W", "西"); ("N", "北"); ("P", "白"); ("F", "发");
  ("C", "中"); ("?", "未知")
].

(** [DORA_DORA_MARKERS]: dora indicator to the dora it designates. *)
Definition DORA_DORA_MARKERS : list (string * string) := [
  ("1m", "2m"); ("2m", "3m"); ("3m", "4m"); ("4m", "5m");
  ("5m", "6m"); ("6m", "7m"); ("7m", "8m"); ("8m", "9m");
  ("9m", "1m"); ("1p", "2p"); ("2p", "3p"); ("3p", "4p");
  ("4p", "5p"); ("5p", "6p"); ("6p", "7p"); ("7p", "8p");
  ("8p", "9p"); ("9p", "1p"); ("1s", "2s"); ("2s", "3s");
  ("3s", "4s"); ("4s", "5s"); ("5s", "6s"); ("6s", "7s");
  ("7s", "8s"); ("8s", "9s"); ("9s", "1s"); ("E", "S");
  ("S", "W"); ("W", "N"); ("N", "E"); ("P", "F");
  ("F", "C"); ("C", "P")
].

(** [ACTION_NL]: action tag to its Chinese name. *)
Definition ACTION_NL : list (string * string) := [
  ("reach", "立直"); ("pon", "碰"); ("chi", "吃"); ("chi_low", "吃(低)");
  ("chi_mid", "吃(中)"); ("chi_high", "吃(高)"); ("kan_select", "选择杠"); ("dahai", "打牌");
  ("kakan", "加杠"); ("daiminkan", "大明杠"); ("ankan", "暗杠"); ("zimo", "自摸");
  ("hora", "和了"); ("ryukyoku", "流局"); ("nukidora", "抜きドラ"); ("none", "过")
].

(** [ACTION_NL_ADV]: seat offset to the relative seat's name. *)
Definition ACTION_NL_ADV : list (pyval * pyval) := [
  (PInt (-3), PStr "下家");
  (PInt (-2), PStr "对家");
  (PInt (-1), PStr "上家");
  (PInt (0), PStr "自己");
  (PInt (1), PStr "下家");
  (PInt (2), PStr "对家");
  (PInt (3), PStr "上家")
].

Definition str_or (o : option string) (dflt : pyval) : pyval :=
  match o with Some s => PStr s | None => dflt end.

Fixpoint mapiM_from {A B} (i : Z) (f : Z -> A -> result B) (l : list A)
  : result (list B) :=
  match l with
  | [] => Ok []
  | x :: r => y <- f i x ;; ys <- mapiM_from (i + 1) f r ;; Ok (y :: ys)
  end.

(** [for i, x in enumerate(l)] *)
Definition mapiM {A B} (f : Z -> A -> result B) (l : list A) : result (list B) :=
  mapiM_from 0 f l.

(** [mjai_to_natural(tile)]: [MJAI_TILE_2_NL.get(tile, tile)]. *)
Definition mjai_to_natural (tile : pyval) : result pyval :=
  o <- table_get MJAI_TILE_2_NL tile ;; Ok (str_or o tile).

(** [tile_list_to_nl(tiles, tile_types)] *)
Definition tile_list_to_nl (tiles tile_types : pyval) : string :=
  if negb (py_truthy tiles) then "无" else
  try_except
    (ts <- py_iter tiles ;;
     parts <- mapiM (fun i t => ty <- py_getitem tile_types i ;;
                                nt <- mjai_to_natural t ;;
                                Ok (PStr (py_str ty ++ py_str nt))) ts ;;
     py_join "、" parts)
    (fun _ _ => py_str tiles).

(** [tile_list_to_nl_single(tiles)] *)
Definition tile_list_to_nl_single (tiles : pyval) : string :=
  if negb (py_truthy tiles) then "无" else
  try_except
    (ts <- py_iter tiles ;;
     parts <- mapM mjai_to_natural ts ;;
     py_join "、" parts)
    (fun _ _ => py_str tiles).

(** [get_dora_from_markers(dora_markers)] *)
Definition get_dora_from_markers (dora_markers : pyval) : result (list string) :=
  if negb (py_truthy dora_markers) then Ok [] else
  ms <- py_iter dora_markers ;;
  ds <- mapM (table_get DORA_DORA_MARKERS) ms ;;
  Ok (flat_map (fun o => match o with
                         | Some d => if py_truthy (PStr d) then [d] else []
                         | None => []
                         end) ds).

(** [melds_to_nl(melds, melds_types)]: its loop is not inside a [try]. *)
Definition melds_to_nl (melds melds_types : pyval) : result string :=
  if negb (py_truthy melds) then Ok "无" else
  ms <- py_iter melds ;;
  out <- mapiM (fun j meld =>
                  match meld with
                  | PList l | PTuple l =>
                      ty <- py_getitem melds_types j ;;
                      ns <- mapM mjai_to_natural l ;;
                      Ok ("[" ++ py_str ty ++ ": "
                            ++ String.concat "、" (map py_str ns) ++ "]")
                  | _ => Ok (py_str meld)
                  end) ms ;;
  Ok (String.concat "，" out).

(** [a or b] *)
Definition py_or (a b : pyval) : pyval := if py_truthy a then a else b.

Definition dict_get_str (kv : list (pyval * pyval)) (k : string) : pyval :=
  match str_key_get kv k with Some x => x | None => PNone end.

Definition is_int_or_float (v : pyval) : bool :=
  match v with PBool _ | PInt _ | PFloat _ => true | _ => false end.

(** [action_to_nl(act)] *)
Definition action_to_nl (act : pyval) : result pyval :=
  match act with
  | PNone => Ok (PStr "无")
  | PTuple l | PList l =>
      match l with
      | PStr typ :: tile :: _ =>
          o <- table_get ACTION_NL (PStr typ) ;;
          match o with
          | Some desc =>
              if String.eqb typ "dahai" then
                if py_truthy tile then
                  nt <- mjai_to_natural tile ;; Ok (PStr ("打" ++ py_str nt))
                else Ok (PStr "打")
              else if py_truthy tile then
                nt <- mjai_to_natural tile ;; Ok (PStr (desc ++ " " ++ py_str nt))
              else Ok (PStr desc)
          | None =>
              match l with
              | [PStr t; x] => if is_int_or_float x then mjai_to_natural (PStr t)
                               else Ok (PStr (String.concat " " (map py_str l)))
              | _ => Ok (PStr (String.concat " " (map py_str l)))
              end
          end
      | _ => Ok (PStr (String.concat " " (map py_str l)))
      end
  | PDict kv =>
      let typ := py_or (dict_get_str kv "type") (dict_get_str kv "action") in
      let pai := py_or (dict_get_str kv "pai") (dict_get_str kv "tile") in
      if py_truthy typ then
        o <- table_get ACTION_NL typ ;;
        let desc := str_or o typ in
        if py_eq typ (PStr "dahai") then
          if py_truthy pai then
            nt <- mjai_to_natural pai ;; Ok (PStr ("打" ++ py_str nt))
          else Ok (PStr "打")
        else if py_truthy pai then
          nt <- mjai_to_natural pai ;; Ok (PStr (py_str desc ++ " " ++ py_str nt))
        else Ok desc
      else if py_truthy pai then mjai_to_natural pai
      else Ok (PStr (py_str act))
  | PStr s =>
      o <- table_get ACTION_NL act ;;
      match o with
      | Some d => if String.eqb s "dahai" then Ok (PStr "打") else Ok (PStr d)
      | None => mjai_to_natural act
      end
  | _ => Ok (PStr (py_str act))
  end.

(** [disc_type_to_nl(discard_type)]: a list of strs, or [''] *)
Definition disc_type_to_nl (discard_type : pyval) : pyval :=
  if negb (py_truthy discard_type) then PStr "" else
  try_except
    (items <- py_iter discard_type ;;
     Ok (PList (map (fun b => PStr (if py_truthy b then "摸切" else "手切")) items)))
    (fun _ _ => PStr (py_str discard_type)).

(** [melds_info_to_nl(melds_info)]: a list, [''], or its argument when
    the loop raises. *)
Definition melds_info_to_nl (melds_info : pyval) : pyval :=
  if negb (py_truthy melds_info) then PStr "" else
  try_except
    (items <- py_iter melds_info ;;
     parts <- mapM (fun info =>
                      match info with
                      | PList (typ :: rest) | PTuple (typ :: rest) =>
                          let actor := nth 0 rest PNone in
                          let target := nth 1 rest PNone in
                          o <- table_get ACTION_NL typ ;;
                          let desc := str_or o PNone in
                          if py_truthy target then
                            d <- py_sub target actor ;;
                            a <- dict_lookup ACTION_NL_ADV d ;;
                            let adv := match a with Some x => x | None => PNone end in
                            Ok (PStr (py_str desc ++ "（来自" ++ py_str adv ++ "）"))
                          else Ok desc
                      | _ => Ok (PStr (py_str info))
                      end) items ;;
     Ok (PList parts))
    (fun _ _ => melds_info).

(** ** The recommendation decoder: [parse_ai_recommendation] *)

(** Modelled from the spec: the interface of [common.mj_helper], which
    the decoder calls and which is not in this source tree.  The spec
    fixes only that there are two fixed action vocabularies (four and three
    players), that [mask_bits] decodes to a boolean sequence and that the
    [q_values] go through a softmax; the vocabularies, the bit decoding and
    the softmax arithmetic are left open, so they are parameters here, and
    each call may raise. *)
Record mj_helper := {
  MJAI_MASK_LIST : list string;
  MJAI_MASK_LIST_3P : list string;
  mask_bits_to_bool_list : pyval -> result (list bool);
  softmax : pyval -> result (list PyFloat.t)
}.

Definition dict_getitem_str (kv : list (pyval * pyval)) (k : string) : result pyval :=
  match str_key_get kv k with
  | Some x => Ok x
  | None => Err KeyError (str_repr k)
  end.

(** [key=lambda x: x[1]] *)
Definition second (x : pyval) : result pyval := py_getitem x 1.

(** Modelled from the spec: the pairing of [mjh.meta_to_options], step 1
    of the decoder's algorithm: each true mask position, in ascending
    index order, takes the vocabulary entry at that index and the next
    unconsumed probability, or probability zero once they run out.  A true
    position past the end of the vocabulary raises IndexError, as indexing
    a Python list does. *)
Fixpoint spec_pairs (names : list string) (i : nat) (mask : list bool)
  (ws : list PyFloat.t) : result (list pyval) :=
  match mask with
  | [] => Ok []
  | b :: r =>
      if b then
        match nth_error names i with
        | Some name =>
            rest <- spec_pairs names (S i) r (tl ws) ;;
            Ok (PTuple [PStr name; PFloat (hd PyFloat.zero ws)] :: rest)
        | None => Err IndexError "list index out of range"
        end
      else spec_pairs names (S i) r ws
  end.

(** Modelled from the spec: [mjh.meta_to_options(meta, is_3p)], the
    pairing above sorted by descending probability. *)
Definition meta_to_options (H : mj_helper) (meta : list (pyval * pyval))
  (is_3p : bool) : result (list pyval) :=
  let mask_list := if is_3p then MJAI_MASK_LIST_3P H else MJAI_MASK_LIST H in
  q_values <- dict_getitem_str meta "q_values" ;;
  mask_bits <- dict_getitem_str meta "mask_bits" ;;
  mask <- mask_bits_to_bool_list H mask_bits ;;
  weight_values <- softmax H q_values ;;
  option_list <- spec_pairs mask_list 0 mask weight_values ;;
  py_sorted_desc second option_list.

(** The manual loop of the fallback (lines 121-128): [i] runs over the
    mask, [q_value_idx] over the weights. *)
Fixpoint manual_pairs (mask_list : list string) (i : nat) (mask : list bool)
  (weight_values : list PyFloat.t) (q_value_idx : nat) : list pyval :=
  match mask with
  | [] => []
  | b :: r =>
      if b then
        let name := match nth_error mask_list i with
                    | Some n => n
                    | None => "idx_" ++ Digits.of_Z (Z.of_nat i)
                    end in
        let w := match nth_error weight_values q_value_idx with
                 | Some x => x
                 | None => PyFloat.zero
                 end in
        PTuple [PStr name; PFloat w]
          :: manual_pairs mask_list (S i) r weight_values (S q_value_idx)
      else manual_pairs mask_list (S i) r weight_values q_value_idx
  end.

(** The fallback: manual parse using [q_values] and [mask_bits]. *)
Definition manual_parse (H : mj_helper) (meta : list (pyval * pyval))
  (is_3p : bool) : result (list pyval) :=
  let mask_list := if is_3p then MJAI_MASK_LIST_3P H else MJAI_MASK_LIST H in
  let q_values := match str_key_get meta "q_values" with
                  | Some x => x | None => PList [] end in
  let mask_bits := match str_key_get meta "mask_bits" with
                   | Some x => x | None => PInt 0 end in
  mask <- mask_bits_to_bool_list H mask_bits ;;
  weight_values <- softmax H q_values ;;
  py_sorted_desc second (manual_pairs mask_list 0 mask weight_values 0).

(** Lines 108-134: the q_values/mask_bits branch, both attempts inside
    [try], so it yields options and the provenance notes. *)
Definition decode_meta (H : mj_helper) (meta : list (pyval * pyval))
  (is_3p : bool) : list pyval * list string :=
  match meta_to_options H meta is_3p with
  | Ok options => (options, ["来自 meta (q_values + mask_bits)"])
  | Err _ _ =>
      match manual_parse H meta is_3p with
      | Ok options => (options, ["来自 meta (手动解析 q_values + mask_bits)"])
      | Err _ e2 => ([], ["解析 meta 出错: " ++ e2])
      end
  end.

(** Lines 102-106: the record the q_values/mask_bits branch reads. *)
Definition meta_source_of (ai_reco : pyval) : option (list (pyval * pyval)) :=
  match ai_reco with
  | PDict kv =>
      match str_key_get kv "meta" with
      | Some (PDict m) => Some m
      | _ => if str_key_in kv "q_values" && str_key_in kv "mask_bits"
             then Some kv else None
      end
  | _ => None
  end.

(** Line 108: the q_values/mask_bits branch is taken. *)
Definition meta_branch (ai_reco : pyval) : option (list (pyval * pyval)) :=
  match meta_source_of ai_reco with
  | Some ms => if py_truthy (PDict ms) && str_key_in ms "q_values"
                  && str_key_in ms "mask_bits" then Some ms else None
  | None => None
  end.

(** Lines 136-153: the branches after the q_values/mask_bits one. *)
Definition other_branches (ai_reco : pyval) : list pyval * list string :=
  match ai_reco with
  | PDict kv =>
      match str_key_get kv "options" with
      | Some (PList l) => (l, ["来自 options 字段"])
      | _ =>
        if str_key_in kv "action" then
          ([PTuple [dict_get_str kv "action"; dict_get_str kv "prob"]],
           ["来自 action 字段"])
        else if str_key_in kv "selected" then
          ([PTuple [dict_get_str kv "selected"; dict_get_str kv "prob"]],
           ["来自 selected 字段"])
        else
          match py_sorted_desc second (map (fun kx => PTuple [fst kx; snd kx]) kv) with
          | Ok options => (options, ["从字典 (action->score) 解析"])
          | Err _ _ => ([], ["无法解析推荐"])
          end
      end
  | _ => ([], [])
  end.

(** Lines 98-153: [options] and [info] once a branch has run. *)
Definition parse_options (H : mj_helper) (ai_reco : pyval) (is_3p : bool)
  : list pyval * list string :=
  match meta_branch ai_reco with
  | Some ms => decode_meta H ms is_3p
  | None => other_branches ai_reco
  end.

(** [for act, prob in ...]: unpacking an item into two names. *)
Definition unpack2 (v : pyval) : result (pyval * pyval) :=
  let wrong (n : nat) : result (pyval * pyval) :=
    if (n <? 2)%nat then
      Err ValueError ("not enough values to unpack (expected 2, got "
                        ++ Digits.of_Z (Z.of_nat n) ++ ")")
    else Err ValueError "too many values to unpack (expected 2)" in
  match v with
  | PList [a; b] | PTuple [a; b] => Ok (a, b)
  | PList l | PTuple l => wrong (List.length l)
  | PStr s => match py_chars s with
              | [a; b] => Ok (PStr a, PStr b)
              | cs => wrong (List.length cs)
              end
  | PDict [(a, _); (b, _)] => Ok (a, b)
  | PDict kv => wrong (List.length kv)
  | _ => Err TypeError ("cannot unpack non-iterable " ++ type_name v ++ " object")
  end.

(** [parse_ai_recommendation(ai_reco, is_3p, top_k)]: the rendered
    [(action_nl, prob)] pairs of the first two options and the provenance
    text.  [top_k] is not read. *)
Definition parse_ai_recommendation (H : mj_helper) (ai_reco : pyval)
  (is_3p : bool) (top_k : Z) : result (list (pyval * pyval) * string) :=
  if negb (py_truthy ai_reco) then Ok ([], "无") else
  let '(options, info) := parse_options H ai_reco is_3p in
  let top_n := 2%nat in
  formatted <- mapM (fun o =>
                       ap <- unpack2 o ;;
                       let '(act, prob) := ap in
                       let nl_act := try_except (action_to_nl act)
                                                (fun _ _ => PStr (py_str act)) in
                       Ok (nl_act, prob)) (firstn top_n options) ;;
  Ok (formatted, String.concat "；" info).

(** ** The prompt composer: [explain] *)

(** [_fmt_prob(p)], local to [explain]. *)
Definition fmt_prob (p : pyval) : string :=
  match p with
  | PNone => ""
  | _ =>
      match py_float p with
      | Err _ _ => " (" ++ py_str p ++ ")"
      | Ok pv =>
          let le a b := match num_cmp a b with
                        | Some Lt | Some Eq => true | _ => false end in
          if le (NI 0) (NF pv) && le (NF pv) (NI 1) then
            " (" ++ PyFloat.fixed1 (PyFloat.mul pv (PyFloat.of_Z 100)) ++ "%)"
          else if le (NI 1) (NF pv) && le (NF pv) (NI 100) then
            " (" ++ PyFloat.fixed1 pv ++ "%)"
          else " (" ++ PyFloat.repr pv ++ ")"
      end
  end.

(** [_get(obj, key, default)], local to [explain]. *)
Definition get_field (obj : pyval) (key : string) (default : pyval) : pyval :=
  match obj with
  | PNone => default
  | PDict kv => match str_key_get kv key with Some x => x | None => default end
  | PObj _ attrs =>
      match find (fun a => String.eqb (fst a) key) attrs with
      | Some a => snd a
      | None => default
      end
  | _ => default
  end.

Definition seq_items (v : pyval) : option (list pyval) :=
  match v with PList l | PTuple l => Some l | _ => None end.

(** [range(n)] *)
Definition py_range (n : Z) : list Z := map Z.of_nat (seq 0 (Z.to_nat n)).

(** [l[:k]] *)
Definition py_slice_to {A} (l : list A) (k : Z) : list A :=
  if 0 <=? k then firstn (Z.to_nat k) l
  else firstn (Z.to_nat (Z.of_nat (List.length l) + k)) l.

Definition seat_label (i : Z) : string := "第" ++ Digits.of_Z (i + 1) ++ "位".

Definition winds : list string := ["东"; "南"; "西"; "北"].

(** [s + x] for a str [s]: [x] must be a str too. *)
Definition str_concat (s : string) (x : pyval) : result string :=
  match x with
  | PStr t => Ok (s ++ t)
  | _ => Err TypeError ("can only concatenate str (not " ++ dquote ++ type_name x
                          ++ dquote ++ ") to str")
  end.

(** The fixed instructions appended to every prompt (lines 430-479). *)
Definition INSTRUCTIONS : string :=
"基于下面的准则，结合AI给出的概率，分析打各张牌的原因：
​​一、战略方针制定：明确手牌目标​​
1.​​差形起手保留可能性​​
•牌效低时优先保留高潜力役种（国士/全带幺九），而非强推低打点门清。
•​​关键操作​​：保留8种以上幺九牌时，切低效搭子，维持国士/混全可能性。
2.终局目标导向​​
•根据分差选择路线：
•大差落后​​：切低效牌，保留三色/混一色变化，博高打点。
•避四局​​：优先安全牌管理，避免放铳。
​​二、进张效率优化：牌型价值最大化​​
1.​消除重叠进张​​
•重叠搭子（如3饼+6饼）优先处理。
•愚形搭子（边张/坎张）价值低于役牌对子。
2.​改良空间评估​​
•中张牌仅能改良为愚形时，优先舍弃。
•保留一杯口/三色同顺潜力牌，牺牲低价值进张。
​​三、攻防平衡：安全牌与危险牌管理​​
1.​危险牌提前处理​​
•推测对手立直前，切中张危险牌，保留现物安牌。
•亲家立直时，客风作安牌保留。
2.​安全度微小差异利用​​
•进张相近时，选择对特定对手更安全的牌。
​​四、局势与信息解读​​
1.​​舍牌信息分析​​
•对手摸切/手切动作反映安全度。
•上家手切1索后切2索 → 可能持有4索。
2.​对手类型针对性应对​​
•门清型对手：保留安牌。
•鸣牌型对手：警惕速攻，优先处理对其危险牌。
​​五、打点与速度权衡​​
1.​亲家/平场提速​​
•保留自风（东）摸对后鸣牌加速，打点不逊门清。
•若役牌非自风（如中），直接切牌追求立直。
2.​差局博高打点​​
•四位时：开杠博里宝，保留三色/混一色变化。

​​核心原则​​：何切是风险与回报的动态权衡，需同步评估「手牌潜力」「当前局势」「对手信息」「风格偏好」，而非依赖单一标准。
                 
对于AI给出的若干个推荐选项，请你：
对于每个选项，给出一个词概括AI为什么给出这样的概率。然后用一句简短的话具体分析这个选项的优缺点。
请用类似于以下的格式输出：
九万：终盘凹打点；南四局落后较多，需要博高打点，九万打出后可以断幺。
碰：速攻；自己已经是一位了，碰牌可以加速和牌，不追求打点。
过：安全牌防守；亲家立直，放铳风险高，自己牌向听数高且打点低，对攻风险大于收益。
三饼：默听；听的牌是立直家现物，可以偷现。
八索：立直；默听无役，南场落后，需要打点。
三万：牌效；三万和六万是重复进张，打出三万不会损失六万的进张。
吃：牌效；对于四七饼场上已经现出5枚，存量很不乐观，吃牌可以保留和牌可能。
一万：防守；已经接近尾巡，自己手里没有宝牌且两向听，安全地打出一万可以降低放铳大牌。
".

(** The per-seat line of the discard/meld ledger (lines 351-364). *)
Definition ledger_line (seat_names : list string) (self_seat discarded melded
  discarded_type melded_info player_reached : pyval) (i : Z) : result string :=
  let nm := match nth_error seat_names (Z.to_nat i) with
            | Some n => n | None => seat_label i end in
  let nm := if py_eq (PInt i) self_seat then nm ++ "(我)" else seat_label i in
  dt <- py_getitem discarded_type i ;;
  let dis_types := disc_type_to_nl dt in
  mi <- py_getitem melded_info i ;;
  let melds_infos := melds_info_to_nl mi in
  _ <- py_getitem melded i ;;  (* print(melds_infos, melded[i]) *)
  let disc_text :=
    match seq_items discarded with
    | Some l => match nth_error l (Z.to_nat i) with
                | Some d => tile_list_to_nl d dis_types
                | None => "无"
                end
    | None => "无"
    end in
  md_text <- match seq_items melded with
             | Some l => match nth_error l (Z.to_nat i) with
                         | Some m => melds_to_nl m melds_infos
                         | None => Ok "无"
                         end
             | None => Ok "无"
             end ;;
  let reach_flag :=
    match seq_items player_reached with
    | Some l => match nth_error l (Z.to_nat i) with
                | Some r => if py_truthy r then "（立直）" else ""
                | None => ""
                end
    | None => ""
    end in
  Ok (nm ++ reach_flag ++ " 牌河: " ++ disc_text ++ "；副露: " ++ md_text).

(** The lines of the prompt [explain] composes (lines 272-479).  The
    meta summary of lines 404-426 has no effect: its lines are never
    appended and nothing in it can raise. *)
Definition explain_lines (H : mj_helper) (game_info kyoku_info ai_recommendation : pyval)
  (is_3p : bool) (top_k : Z) : result (list string) :=
  let bakaze := get_field game_info "bakaze" (PStr "?") in
  let kyoku := get_field game_info "kyoku" (PStr "?") in
  let honba := get_field game_info "honba" (PInt 0) in
  let kyotaku := get_field game_info "kyotaku" (PInt 0) in
  let oya := get_field game_info "oya" PNone in
  let dora_marker := get_field game_info "dora_marker"
                       (get_field game_info "dora" (PList [PStr "?"])) in
  dora <- get_dora_from_markers dora_marker ;;
  let scores := match get_field game_info "scores" PNone with
                | PNone => get_field kyoku_info "scores" PNone
                | s => s
                end in
  let my_tehai := get_field game_info "my_tehai" (get_field game_info "tehai" PNone) in
  let my_tsumohai := get_field game_info "my_tsumohai"
                       (get_field game_info "tsumohai" PNone) in
  let player_reached := get_field game_info "player_reached"
                          (get_field game_info "player_reach" PNone) in
  let self_seat := get_field game_info "self_seat" (get_field game_info "my_seat" PNone) in
  let discarded := get_field kyoku_info "discarded" PNone in
  let melded := get_field kyoku_info "melded" PNone in
  let discarded_type := get_field kyoku_info "discarded_type" PNone in
  let melded_info := get_field kyoku_info "melded_info" PNone in
  let seq_len (v : pyval) : option Z :=
    match seq_items v with
    | Some l => if py_truthy v then Some (Z.of_nat (List.length l)) else None
    | None => None
    end in
  let seat_count :=
    match seq_len scores, seq_len discarded, seq_len melded with
    | Some n, _, _ | None, Some n, _ | None, None, Some n => n
    | None, None, None => if is_3p then 3 else 4
    end in
  seat_names <-
    match oya with
    | PNone => Ok (map seat_label (py_range seat_count))
    | _ => mapM (fun idx =>
                   d <- py_sub (PInt idx) oya ;;
                   match d with
                   | PInt z => Ok (seat_label idx ++ "("
                                     ++ nth (Z.to_nat (z mod 4)) winds "" ++ "家)")
                   | _ => Err TypeError ("list indices must be integers or slices, not "
                                           ++ type_name d)
                   end) (py_range seat_count)
    end ;;
  bk <- table_get [("E", "东"); ("S", "南"); ("W", "西"); ("N", "北")] bakaze ;;
  let bakaze_cn := str_or bk bakaze in
  oya_text <- match oya with
              | PNone => Ok "未知"
              | _ => v <- py_add oya (PInt 1) ;; Ok (py_str v)
              end ;;
  dora_nl <- mjai_to_natural (PStr (tile_list_to_nl_single (PList (map PStr dora)))) ;;
  let header := "场风: " ++ py_str bakaze_cn ++ py_str kyoku ++ "局；本场: "
                  ++ py_str honba ++ "本；供托: " ++ py_str kyotaku ++ "；庄家: "
                  ++ oya_text ++ "位；宝牌: " ++ py_str dora_nl ++ "。"
                  ++ (if is_3p then "本局是三人麻将。" else "") in
  score_line <-
    (if py_truthy scores then
       ss <- py_iter scores ;;
       parts <- mapiM (fun i s =>
                         v <- py_int s ;;
                         let name := match nth_error seat_names (Z.to_nat i) with
                                     | Some n => n
                                     | None => "第" ++ Digits.of_Z (i + 1) ++ "位"
                                     end in
                         Ok (name ++ " " ++ Digits.of_Z v ++ "分")) ss ;;
       Ok ("分数: " ++ String.concat "；" parts)
     else Ok "分数: 无") ;;
  ledger <- mapM (ledger_line seat_names self_seat discarded melded discarded_type
                              melded_info player_reached) (py_range seat_count) ;;
  let hand_line := "我的手牌: " ++ (if py_truthy my_tehai
                                   then tile_list_to_nl_single my_tehai else "未知") in
  draw_line <- (if py_truthy my_tsumohai then
                  t <- mjai_to_natural my_tsumohai ;; str_concat "我摸到: " t
                else Ok "我摸到: 无") ;;
  pr <- parse_ai_recommendation H ai_recommendation is_3p top_k ;;
  let '(options, _) := pr in
  reco_lines <-
    match options with
    | _ :: _ =>
        mapiM (fun idx ap =>
                 a <- action_to_nl (fst ap) ;;
                 Ok (Digits.of_Z (idx + 1) ++ ". " ++ py_str a ++ fmt_prob (snd ap)))
              (py_slice_to options top_k)
    | [] =>
        match ai_recommendation with
        | PDict kv =>
            if str_key_in kv "type" then
              desc <- action_to_nl ai_recommendation ;;
              s <- str_concat "1. " desc ;;
              Ok [s ++ fmt_prob (dict_get_str kv "prob")]
            else Ok ["无可解析的推荐"]
        | _ => Ok ["无可解析的推荐"]
        end
    end ;;
  Ok (["你是一个专业的日本麻将高手，擅长分析和解读麻将游戏中的策略和技巧。";
       "请基于下列牌局快照和AI推荐，简明扼要地解释AI给出概率的原因。"; ""; header;
       score_line; ""; "场上弃牌（按位）:"]
      ++ ledger ++ [""; hand_line; draw_line] ++ [""; "AI 推荐:"] ++ reco_lines
      ++ [""; INSTRUCTIONS])%list.

(** The prompt [explain] composes: its lines joined by newlines.  [explain]
    then logs it and returns [llm_client.send_request("", prompt)], the
    external model's answer. *)
Definition explain_prompt (H : mj_helper) (game_info kyoku_info ai_recommendation : pyval)
  (is_3p : bool) (top_k : Z) : result string :=
  lines <- explain_lines H game_info kyoku_info ai_recommendation is_3p top_k ;;
  Ok (String.concat newline lines).

(** ** [llm/auth.py]: the token providers *)

(** The exceptions these modules raise or let through: a builtin one as
    modelled above, [Exception(msg)], [NotImplementedError(msg)], or one
    raised inside a library (PyJWT, MSAL, azure-identity, the chat client). *)
Inductive exc :=
| ExcPy (c : exc_class) (msg : string)
| ExcException (msg : string)
| ExcNotImplementedError (msg : string)
| ExcExternal (msg : string).

Inductive outcome (A : Type) : Type :=
| Done (a : A)
| Raised (e : exc).
Arguments Done {A} a.
Arguments Raised {A} e.

(** The calls to the outside world, recorded in the order they are made. *)
Inductive event :=
| EvTime                                             (* time.time() *)
| EvAcquire (client_id : string) (scopes : list string)
    (* app.acquire_token_interactive(scopes=..., ...) *)
| EvCliToken (scope : string)        (* AzureCliCredential().get_token(scope) *)
| EvInput (prompt : string).                         (* input(prompt) *)

(** The libraries and the world: [jwt.decode(token, options=
    {"verify_signature": False})] as a function of the token; the clock,
    the interactive MSAL login of the app with a client id, the Azure CLI
    credential and [input()] as functions of the calls made before. *)
Record auth_env := {
  jwt_decode : pyval -> outcome (list (pyval * pyval));
  clock : list event -> PyFloat.t;
  acquire_token_interactive : list event -> string -> list string
                              -> outcome (list (pyval * pyval));
  cli_get_token : list event -> string -> outcome pyval;
  input : list event -> string -> outcome string
}.

(** Methods on an object with state [S]: the object's fields and the calls
    made so far.  A raised exception keeps the changes made before it. *)
Definition M (S A : Type) : Type := S * list event -> outcome A * (S * list event).

Definition mret {S A} (a : A) : M S A := fun s => (Done a, s).

Definition mraise {S A} (e : exc) : M S A := fun s => (Raised e, s).

Definition mbind {S A B} (m : M S A) (k : A -> M S B) : M S B :=
  fun s => match m s with
           | (Done a, s') => k a s'
           | (Raised e, s') => (Raised e, s')
           end.

Notation "x <-- m ;; k" := (mbind m (fun x => k))
  (at level 61, m at next level, right associativity).

Definition of_result {S A} (r : result A) : M S A :=
  match r with Ok a => mret a | Err c m => mraise (ExcPy c m) end.

Definition of_outcome {S A} (r : outcome A) : M S A := fun s => (r, s).

(** A call to the world: its answer depends on the calls made before. *)
Definition call {S A} (ev : event) (f : list event -> outcome A) : M S A :=
  fun s => (f (snd s), (fst s, (snd s ++ [ev])%list)).

Definition mget {S} : M S S := fun s => (Done (fst s), s).

Definition mmodify {S} (f : S -> S) : M S unit := fun s => (Done tt, (f (fst s), snd s)).

Definition time_time {S} (env : auth_env) : M S PyFloat.t :=
  call EvTime (fun log => Done (clock env log)).

(** The body shared by [DefaultAuthProvider._is_fresh(token)] and
    [InputAuth._valid(token)]; the logging is left out but for the clock
    reading its message makes. *)
Definition token_is_fresh {S} (env : auth_env) (token : pyval) : M S bool :=
  match token with
  | PNone => mret false
  | _ =>
      decoded_token <-- of_outcome (jwt_decode env token) ;;
      exp <-- of_result (dict_getitem_str decoded_token "exp") ;;
      now <-- time_time env ;;
      expired <-- of_result (py_lt exp (PFloat now)) ;;
      if expired then
        (* f"Token expired at {decoded_token['exp']}, current time is {time.time()}" *)
        _ <-- time_time env ;; mret false
      else mret true
  end.

Definition _client_id : string := "d3590ed6-52b3-4102-aeff-aad2292ab01c".
Definition _scope : list string := ["https://outlook.office.com/.default"].
Definition _graph_scope : list string := ["https://graph.microsoft.com/.default"].
Definition _mcp_client_id : string := "9ce97a32-d9ab-4ab2-aadc-f49b39b94e11".
Definition _sample_client_id : string := "68df66a4-cad9-4bfd-872b-c6ddde00d6b2".
Definition _substrate_llm_scopes : list string :=
  ["https://substrate.office.com/llmapi/LLMAPI.dev"].

(** [d.get(k, None)] and [d[k] = v] for a dict with str keys. *)
Definition dict_get_or_none (kv : list (string * pyval)) (k : string) : pyval :=
  match find (fun p => String.eqb (fst p) k) kv with
  | Some p => snd p
  | None => PNone
  end.

Definition dict_set_str (kv : list (string * pyval)) (k : string) (v : pyval)
  : list (string * pyval) :=
  if existsb (fun p => String.eqb (fst p) k) kv
  then map (fun p => if String.eqb (fst p) k then (k, v) else p) kv
  else (kv ++ [(k, v)])%list.

(** [DefaultAuthProvider]: its state is [self._tokens].  The class body
    defines each getter and refresher twice; the second definition, which
    Python keeps, has the same statements as the first.  Logging and
    [_get_console_window()], which only computes the window handle passed
    to the login, do not change the state. *)
Module DefaultAuthProvider.

Abbreviation tokens := (list (string * pyval)).

Definition _set_token (name : string) (token : pyval) : M tokens unit :=
  mmodify (fun t => dict_set_str t name token).

Definition _get_token (name : string) : M tokens pyval :=
  t <-- mget ;; mret (dict_get_or_none t name).

Definition _is_fresh (env : auth_env) (token : pyval) : M tokens bool :=
  token_is_fresh env token.

(** The body of [refresh_substrate_token], [refresh_substrate_llm_token]
    and [refresh_graph_token], for the cache entry [name] and the app
    with [client_id] and [scopes]. *)
Definition refresh_interactive (env : auth_env) (name client_id : string)
  (scopes : list string) : M tokens unit :=
  current_token <-- _get_token name ;;
  fresh <-- _is_fresh env current_token ;;
  if fresh then mret tt else
  result <-- call (EvAcquire client_id scopes)
                  (fun log => acquire_token_interactive env log client_id scopes) ;;
  if str_key_in result "access_token" then
    tok <-- of_result (dict_getitem_str result "access_token") ;;
    _set_token name tok
  else mraise (ExcException "Failed to acquire token").

Definition refresh_substrate_token (env : auth_env) : M tokens unit :=
  refresh_interactive env "substrate" _client_id _scope.

Definition refresh_substrate_llm_token (env : auth_env) : M tokens unit :=
  refresh_interactive env "substrate_llm" _sample_client_id _substrate_llm_scopes.

Definition refresh_graph_token (env : auth_env) : M tokens unit :=
  refresh_interactive env "graph" _mcp_client_id _graph_scope.

Definition azure_scope : string := "https://cognitiveservices.azure.com/.default".

Definition refresh_azure_openai_token (env : auth_env) : M tokens unit :=
  current_token <-- _get_token "azure" ;;
  fresh <-- _is_fresh env current_token ;;
  if fresh then mret tt else
  tok <-- call (EvCliToken azure_scope) (fun log => cli_get_token env log azure_scope) ;;
  _set_token "azure" tok.

Definition get_azure_openai_token (env : auth_env) : M tokens pyval :=
  _ <-- refresh_azure_openai_token env ;; _get_token "azure".

Definition get_substrate_token (env : auth_env) : M tokens pyval :=
  _ <-- refresh_substrate_token env ;; _get_token "substrate".

Definition get_substrate_llm_token (env : auth_env) : M tokens pyval :=
  _ <-- refresh_substrate_llm_token env ;; _get_token "substrate_llm".

Definition get_graph_token (env : auth_env) : M tokens pyval :=
  _ <-- refresh_graph_token env ;; _get_token "graph".

(** [AuthProvider.ensure_all_tokens], inherited. *)
Definition ensure_all_tokens (env : auth_env) : M tokens unit :=
  _ <-- get_azure_openai_token env ;;
  _ <-- get_graph_token env ;;
  _ <-- get_substrate_token env ;;
  _ <-- get_substrate_llm_token env ;;
  mret tt.

End DefaultAuthProvider.

(** [SimpleAuth]: it forwards its getters to a [DefaultAuthProvider] it
    owns, and [clear_cache] empties that provider's [_tokens]. *)
Module SimpleAuth.

Definition clear_cache : M DefaultAuthProvider.tokens unit := mmodify (fun _ => []).

End SimpleAuth.

(** [InputAuth]: its state is the four token attributes, [None] at first. *)
Module InputAuth.

Record state := {
  substrate_token : pyval;
  graph_token : pyval;
  azure_openai_token : pyval;
  substrate_llm_token : pyval
}.

Definition init : state := {|
  substrate_token := PNone; graph_token := PNone;
  azure_openai_token := PNone; substrate_llm_token := PNone |}.

Definition set_substrate_token (v : pyval) (s : state) : state :=
  {| substrate_token := v; graph_token := graph_token s;
     azure_openai_token := azure_openai_token s;
     substrate_llm_token := substrate_llm_token s |}.

Definition set_graph_token (v : pyval) (s : state) : state :=
  {| substrate_token := substrate_token s; graph_token := v;
     azure_openai_token := azure_openai_token s;
     substrate_llm_token := substrate_llm_token s |}.

Definition set_substrate_llm_token (v : pyval) (s : state) : state :=
  {| substrate_token := substrate_token s; graph_token := graph_token s;
     azure_openai_token := azure_openai_token s;
     substrate_llm_token := v |}.

Definition _valid (env : auth_env) (token : pyval) : M state bool :=
  token_is_fresh env token.

Definition get_azure_openai_token : M state pyval :=
  mraise (ExcNotImplementedError
            "Azure OpenAI token not found a good way to get it, please try to use SimpleAuth or DefaultAuthProvider").

(** The body of [get_substrate_token], [get_substrate_llm_token] and
    [get_graph_token], for the attribute [field] and the prompt text. *)
Definition prompt_token (env : auth_env) (field : state -> pyval)
  (set : pyval -> state -> state) (prompt : string) : M state pyval :=
  st <-- mget ;;
  ok <-- (if py_truthy (field st) then _valid env (field st) else mret false) ;;
  if ok then mret (field st) else
  s <-- call (EvInput prompt) (fun log => input env log prompt) ;;
  _ <-- mmodify (set (PStr s)) ;;
  mret (PStr s).

Definition get_substrate_token (env : auth_env) : M state pyval :=
  prompt_token env substrate_token set_substrate_token "Enter Substrate token: ".

Definition get_substrate_llm_token (env : auth_env) : M state pyval :=
  prompt_token env substrate_llm_token set_substrate_llm_token
    "Enter Substrate LLM token: ".

Definition get_graph_token (env : auth_env) : M state pyval :=
  prompt_token env graph_token set_graph_token "Enter Microsoft Graph token: ".

Definition refresh_azure_openai_token : M state unit := mret tt.
Definition refresh_substrate_token : M state unit := mret tt.
Definition refresh_substrate_llm_token : M state unit := mret tt.
Definition refresh_graph_token : M state unit := mret tt.

(** [AuthProvider.ensure_all_tokens], inherited. *)
Definition ensure_all_tokens (env : auth_env) : M state unit :=
  _ <-- get_azure_openai_token ;;
  _ <-- get_graph_token env ;;
  _ <-- get_substrate_token env ;;
  _ <-- get_substrate_llm_token env ;;
  mret tt.

End InputAuth.

Definition outcome_of_result {A} (r : result A) : outcome A :=
  match r with Ok a => Done a | Err c m => Raised (ExcPy c m) end.

(** [get_shard_id(token)]: ["OID:" + d['oid'] + "@" + d['tid']], evaluated
    left to right. *)
Definition get_shard_id (env : auth_env) (token : pyval) : outcome string :=
  match jwt_decode env token with
  | Raised e => Raised e
  | Done d =>
      outcome_of_result
        (oid <- dict_getitem_str d "oid" ;;
         s1 <- str_concat "OID:" oid ;;
         tid <- dict_getitem_str d "tid" ;;
         str_concat (s1 ++ "@") tid)
  end.

(** [get_tenant_id(token)] *)
Definition get_tenant_id (env : auth_env) (token : pyval) : outcome pyval :=
  match jwt_decode env token with
  | Raised e => Raised e
  | Done d => outcome_of_result (dict_getitem_str d "tid")
  end.

(** [get_user_id(token)] *)
Definition get_user_id (env : auth_env) (token : pyval) : outcome pyval :=
  match jwt_decode env token with
  | Raised e => Raised e
  | Done d => outcome_of_result (dict_getitem_str d "oid")
  end.

(** ** [llm/openai_llm.py] and the end of [explain] *)

(** The [messages] list [AOAILLMClient.send_request(system, user)] builds. *)
Definition request_messages (system : string) (user : pyval) : list pyval :=
  ([PDict [(PStr "role", PStr "system"); (PStr "content", PStr system)]]
   ++ (if py_truthy user
       then [PDict [(PStr "role", PStr "user"); (PStr "content", user)]]
       else []))%list.

(** [send_request(system, user)]: [invoke] is [self.llm.invoke(messages)]
    followed by [.content], the external chat model. *)
Definition send_request (invoke : list pyval -> outcome string) (system : string)
  (user : pyval) : outcome string :=
  invoke (request_messages system user).

(** [explain(...)]: the prompt, then [llm_client.send_request("", prompt)]. *)
Definition explain (invoke : list pyval -> outcome string) (H : mj_helper)
  (game_info kyoku_info ai_recommendation : pyval) (is_3p : bool) (top_k : Z)
  : outcome string :=
  match explain_prompt H game_info kyoku_info ai_recommendation is_3p top_k with
  | Err c m => Raised (ExcPy c m)
  | Ok prompt => send_request invoke "" (PStr prompt)
  end.

(** ** Vocabulary of the statements *)

(** A concrete [mj_helper] to run the decoder on examples: a four-entry
    vocabulary, mask bits read least significant first, and, in place of
    the softmax, the q-values converted to floats unchanged. *)
Definition sample_helper : mj_helper := {|
  MJAI_MASK_LIST := ["1m"; "2m"; "3m"; "reach"];
  MJAI_MASK_LIST_3P := ["1m"; "9m"; "reach"];
  mask_bits_to_bool_list := fun v =>
    match v with
    | PInt z => Ok (map (fun i => Z.testbit z (Z.of_nat i)) (seq 0 4))
    | _ => Err TypeError "mask_bits must be an int"
    end;
  softmax := fun v =>
    match v with
    | PList l => mapM py_float l
    | _ => Err TypeError "q_values must be a list"
    end
|}.

(** Number of true entries of a mask. *)
Fixpoint count_true (mask : list bool) : nat :=
  match mask with
  | [] => O
  | b :: r => if b then S (count_true r) else count_true r
  end.

(** The first [n] weights, with zeros once the weights run out. *)
Fixpoint zero_fill (ws : list PyFloat.t) (n : nat) : list PyFloat.t :=
  match n with
  | O => []
  | S k => hd PyFloat.zero ws :: zero_fill (tl ws) k
  end.

(** The probability of a decoded [(name, probability)] option. *)
Definition prob_of (x : pyval) : option PyFloat.t :=
  match x with PTuple [_; PFloat p] => Some p | _ => None end.

(** No option precedes one of strictly greater probability. *)
Definition sorted_by_prob (options : list pyval) : Prop :=
  ForallOrdPairs (fun a b => exists pa pb, prob_of a = Some pa /\ prob_of b = Some pb
                                           /\ PyFloat.ltb pa pb = false) options.

(** The Chinese name [MJAI_TILE_2_NL] gives a tile code, or the code. *)
Definition tile_nl (t : string) : string :=
  match find (fun kv => String.eqb (fst kv) t) MJAI_TILE_2_NL with
  | Some kv => snd kv
  | None => t
  end.

(** The successor [DORA_DORA_MARKERS] gives an indicator, if any. *)
Definition dora_of (t : string) : option string :=
  option_map snd (find (fun kv => String.eqb (fst kv) t) DORA_DORA_MARKERS).

(** The group of a tile code: its suit letter for a numbered tile,
    ["wind"] or ["dragon"] for an honour. *)
Definition tile_group (t : string) : string :=
  if existsb (String.eqb t) ["E"; "S"; "W"; "N"] then "wind"
  else if existsb (String.eqb t) ["P"; "F"; "C"] then "dragon"
  else String.substring 1 1 t.

Definition rank_code (n : nat) (suit : string) : string :=
  String (ascii_of_nat (48 + n)) suit.

(** A game record with dealer seat 0, four scores and dora indicator 9m,
    and a round record with empty discards and melds for four seats. *)
Definition four_seats (self_seat : pyval) : pyval :=
  PDict [(PStr "oya", PInt 0);
         (PStr "scores", PList [PInt 25000; PInt 25000; PInt 25000; PInt 25000]);
         (PStr "dora_marker", PList [PStr "9m"]);
         (PStr "self_seat", self_seat)].

Definition empty4 : pyval := PList [PList []; PList []; PList []; PList []].

Definition empty_round : pyval :=
  PDict [(PStr "discarded", empty4); (PStr "melded", empty4);
         (PStr "discarded_type", empty4); (PStr "melded_info", empty4)].

(** ** Lemmas *)

(** *** The order [<] puts on floats other than NaN

    Python's [<] on two floats is [SFltb]; away from NaN it is the
    lexicographic order of the key below: negative infinity, negative
    finite values (larger exponent, then larger mantissa, first), zeros,
    positive finite values, positive infinity. *)
Definition float_key (f : PyFloat.t) : Z * Z * Z :=
  match f with
  | S754_infinity true => (0, 0, 0)
  | S754_finite true m e => (1, - e, Z.neg m)
  | S754_zero _ => (2, 0, 0)
  | S754_finite false m e => (3, e, Z.pos m)
  | S754_infinity false => (4, 0, 0)
  | S754_nan => (0, 0, 0)
  end.

Definition key_lt (a b : Z * Z * Z) : Prop :=
  let '(a1, a2, a3) := a in
  let '(b1, b2, b3) := b in
  a1 < b1 \/ (a1 = b1 /\ (a2 < b2 \/ (a2 = b2 /\ a3 < b3))).

(** Two sort keys, both floats, the first not less than the second. *)
Definition key_not_lt (a b : pyval) : Prop :=
  exists fa fb, a = PFloat fa /\ b = PFloat fb /\ PyFloat.ltb fa fb = false.

Definition float_keyed (p : pyval * pyval) : Prop := exists f, snd p = PFloat f.

(** A decoded option: a name and a float probability. *)
Definition opt_ok (o : pyval) : Prop := exists n p, o = PTuple [PStr n; PFloat p].

Definition opt_prob (o : pyval) : PyFloat.t :=
  match prob_of o with Some p => p | None => PyFloat.zero end.

(** A payload with a nested [meta] record: two q-values and the mask
    [1101] (bit 0 first), one true position more than there are q-values. *)
Definition sample_meta : list (pyval * pyval) :=
  [(PStr "q_values", PList [PFloat (Lit.decimal_float false 3 (-1));
                            PFloat (Lit.decimal_float false 7 (-1))]);
   (PStr "mask_bits", PInt 13)].

Definition sample_meta_reco : pyval := PDict [(PStr "meta", PDict sample_meta)].

(** *** Vocabulary of the statements on the token providers and the
    rendering helpers *)

(** A cached entry [name] holding a token [tok] that decodes, has an
    ['exp'] and is not older than the clock at [log]. *)
Definition fresh_entry (env : auth_env) (t : DefaultAuthProvider.tokens)
  (log : list event) (name : string) (tok : pyval) : Prop :=
  dict_get_or_none t name = tok /\ tok <> PNone /\
  exists d e, jwt_decode env tok = Done d /\ dict_getitem_str d "exp" = Ok e /\
              py_lt e (PFloat (clock env log)) = Ok false.

(** A cached entry [name] that is missing, or whose token has expired
    (two clock readings); [log'] is the log when the freshness check ends. *)
Definition stale_entry (env : auth_env) (t : DefaultAuthProvider.tokens)
  (log : list event) (name : string) (log' : list event) : Prop :=
  (dict_get_or_none t name = PNone /\ log' = log) \/
  (exists tok d e, dict_get_or_none t name = tok /\ tok <> PNone /\
     jwt_decode env tok = Done d /\ dict_getitem_str d "exp" = Ok e /\
     py_lt e (PFloat (clock env log)) = Ok true /\
     log' = (log ++ [EvTime; EvTime])%list).

(** The four getters of [DefaultAuthProvider] with their cache entries. *)
Definition default_getters
  : list (string * (auth_env -> M DefaultAuthProvider.tokens pyval)) :=
  [("azure", DefaultAuthProvider.get_azure_openai_token);
   ("graph", DefaultAuthProvider.get_graph_token);
   ("substrate", DefaultAuthProvider.get_substrate_token);
   ("substrate_llm", DefaultAuthProvider.get_substrate_llm_token)].

(** The three getters that log in through MSAL, with their cache entry,
    the app's client id and the scopes they ask for. *)
Definition interactive_getters
  : list (string * string * list string
          * (auth_env -> M DefaultAuthProvider.tokens pyval)) :=
  [("graph", _mcp_client_id, _graph_scope, DefaultAuthProvider.get_graph_token);
   ("substrate", _client_id, _scope, DefaultAuthProvider.get_substrate_token);
   ("substrate_llm", _sample_client_id, _substrate_llm_scopes,
    DefaultAuthProvider.get_substrate_llm_token)].

(** The three getters of [InputAuth] that prompt, with their attribute,
    its setter and the prompt text. *)
Definition input_getters
  : list ((InputAuth.state -> pyval) * (pyval -> InputAuth.state -> InputAuth.state)
          * string * (auth_env -> M InputAuth.state pyval)) :=
  [(InputAuth.substrate_token, InputAuth.set_substrate_token,
    "Enter Substrate token: ", InputAuth.get_substrate_token);
   (InputAuth.substrate_llm_token, InputAuth.set_substrate_llm_token,
    "Enter Substrate LLM token: ", InputAuth.get_substrate_llm_token);
   (InputAuth.graph_token, InputAuth.set_graph_token,
    "Enter Microsoft Graph token: ", InputAuth.get_graph_token)].

(** A world for the examples: tokens ["junk"] do not decode, ["stale"]
    expired at 1000 and the others expire at 2000000000; the clock reads
    1700000000; the logins of every app but the one [denied] succeed. *)
Definition sample_jwt (tok : pyval) : outcome (list (pyval * pyval)) :=
  match tok with
  | PStr s =>
      if String.eqb s "junk" then Raised (ExcExternal "Not enough segments")
      else Done [(PStr "exp", PInt (if String.eqb s "stale" then 1000 else 2000000000));
                 (PStr "oid", PStr "u1"); (PStr "tid", PStr "t1")]
  | _ => Raised (ExcExternal "Invalid token type")
  end.

Definition sample_env (denied : string) : auth_env := {|
  jwt_decode := sample_jwt;
  clock := fun _ => PyFloat.of_Z 1700000000;
  acquire_token_interactive := fun _ cid _ =>
    if String.eqb cid denied then Done [(PStr "error", PStr "access_denied")]
    else Done [(PStr "access_token", PStr ("tok-" ++ cid))];
  cli_get_token := fun _ _ => Done (PStr "cli-token");
  input := fun _ _ => Done "typed-token" |}.

(** The name [ACTION_NL] gives an action tag, if any. *)
Definition action_name (s : string) : option string :=
  option_map snd (find (fun kv => String.eqb (fst kv) s) ACTION_NL).

(** A str whose first byte is not ASCII, as every Chinese or Japanese text
    in UTF-8. *)
Definition lead_byte_high (s : string) : bool :=
  match s with String c _ => Nat.leb 128 (nat_of_ascii c) | EmptyString => false end.

Definition ascii_led (s : string) : bool :=
  match s with String c _ => Nat.ltb (nat_of_ascii c) 128 | EmptyString => true end.

(** The relative seat a seat offset names, counted modulo 4. *)
Definition relative_seat (d : Z) : string :=
  nth (Z.to_nat (d mod 4)) ["自己"; "下家"; "对家"; "上家"] "".

(** The label [disc_type_to_nl] gives one discard flag. *)
Definition discard_label (b : pyval) : string := if py_truthy b then "摸切" else "手切".

(** A call record [(type, actor, target)] and how [melds_info_to_nl]
    renders it. *)
Definition meld_info_item (it : string * Z * Z) : pyval :=
  let '(typ, a, t) := it in PList [PStr typ; PInt a; PInt t].

Definition meld_info_text (it : string * Z * Z) : pyval :=
  let '(typ, a, t) := it in
  if t =? 0 then str_or (action_name typ) PNone
  else PStr (py_str (str_or (action_name typ) PNone) ++ "（来自"
             ++ (if (-3 <=? t - a) && (t - a <=? 3) then relative_seat (t - a) else "None")
             ++ "）").

(** One step of the loop of [tile_list_to_nl], given the list of labels. *)
Definition disc_parts (L : list pyval) : Z -> pyval -> result pyval :=
  fun i t => ty <- py_getitem (PList L) i ;;
             nt <- mjai_to_natural t ;;
             Ok (PStr (py_str ty ++ py_str nt)).

(** One step of the loop of [melds_to_nl], given its [melds_types]. *)
Definition meld_part (melds_types : pyval) : Z -> pyval -> result string :=
  fun j meld =>
    match meld with
    | PList l | PTuple l =>
        ty <- py_getitem melds_types j ;;
        ns <- mapM mjai_to_natural l ;;
        Ok ("[" ++ py_str ty ++ ": " ++ String.concat "、" (map py_str ns) ++ "]")
    | _ => Ok (py_str meld)
    end.

(** How [melds_to_nl] renders a meld given as a list of tile codes, with
    its type. *)
Definition meld_label (p : pyval * list string) : string :=
  "[" ++ py_str (fst p) ++ ": " ++ String.concat "、" (map tile_nl (snd p)) ++ "]".

(** One step of the loop of [melds_info_to_nl]. *)
Definition meld_info_part (info : pyval) : result pyval :=
  match info with
  | PList (typ :: rest) | PTuple (typ :: rest) =>
      let actor := nth 0 rest PNone in
      let target := nth 1 rest PNone in
      o <- table_get ACTION_NL typ ;;
      let desc := str_or o PNone in
      if py_truthy target then
        d <- py_sub target actor ;;
        a <- dict_lookup ACTION_NL_ADV d ;;
        let adv := match a with Some x => x | None => PNone end in
        Ok (PStr (py_str desc ++ "（来自" ++ py_str adv ++ "）"))
      else Ok desc
  | _ => Ok (PStr (py_str info))
  end.

Lemma mapM_length {A B} (f : A -> result B) l l' :
  mapM f l = Ok l' -> List.length l' = List.length l.
Proof.
  revert l'; induction l as [|x r IH]; simpl; intros l' H.
  - inversion H; reflexivity.
  - destruct (f x) as [y|c m]; simpl in H; [|discriminate].
    destruct (mapM f r) as [ys|c m] eqn:E; simpl in H; [|discriminate].
    inversion H; subst; simpl; f_equal; apply IH; reflexivity.
Qed.

Lemma mapM_map_ok {A B} (f : A -> result B) (g : A -> B) l :
  (forall x, In x l -> f x = Ok (g x)) -> mapM f l = Ok (map g l).
Proof.
  induction l as [|x r IH]; simpl; intros Hf; [reflexivity|].
  rewrite (Hf x (or_introl eq_refl)); simpl.
  rewrite IH by (intros; apply Hf; right; assumption); reflexivity.
Qed.

Lemma mjai_to_natural_str t : mjai_to_natural (PStr t) = Ok (PStr (tile_nl t)).
Proof.
  unfold mjai_to_natural, table_get, tile_nl; cbn -[find].
  destruct (find (fun kv => String.eqb (fst kv) t) MJAI_TILE_2_NL) as [[k v]|];
    reflexivity.
Qed.

Lemma py_truthy_str t : t <> "" -> py_truthy (PStr t) = true.
Proof. destruct t; [contradiction|reflexivity]. Qed.

Lemma dora_values_nonempty m d : dora_of m = Some d -> py_truthy (PStr d) = true.
Proof.
  unfold dora_of; cbn -[find].
  destruct (find (fun kv => String.eqb (fst kv) m) DORA_DORA_MARKERS) as [[k v]|] eqn:E; simpl; intros H; [|discriminate].
  inversion H; subst.
  apply find_some in E as [Hin _].
  repeat (destruct Hin as [Hin|Hin]; [inversion Hin; reflexivity|]).
  destruct Hin.
Qed.

(** ** Claims *)

(** C1 (code_bug): an [options] list whose element is not a pair makes
    [parse_ai_recommendation] raise: [for act, prob in options[:2]] unpacks
    outside any [try], so [{'options': [1]}] escapes as a TypeError. *)
Theorem C1_options_element_raises : forall H is_3p top_k,
  parse_ai_recommendation H (PDict [(PStr "options", PList [PInt 1])]) is_3p top_k
  = Err TypeError "cannot unpack non-iterable int object".
Proof. intros H is_3p top_k; reflexivity. Qed.

(** C2 (code_bug): with the round record absent ([kyoku_info = None]) and
    an empty game record, [explain] raises before composing anything:
    [discarded_type[i]] subscripts None, where the neighbouring lines guard
    [discarded] and [melded] with an [isinstance] and length check. *)
Theorem C2_missing_round_record_raises : forall H ai is_3p top_k,
  explain_prompt H (PDict []) PNone ai is_3p top_k
  = Err TypeError "'NoneType' object is not subscriptable".
Proof. intros H ai [|] top_k; reflexivity. Qed.

(** C3 (counterexample): a truthy payload that is not a dict, such as the
    int 5, matches no branch and yields an empty provenance text. *)
Lemma C3_non_dict_empty_provenance :
  parse_ai_recommendation sample_helper (PInt 5) false 3 = Ok ([], "").
Proof. reflexivity. Qed.

(** C3 (amended): a non-empty dict that takes none of the named branches
    and whose items cannot be sorted by score decodes to no options and the
    provenance ['无法解析推荐'], without raising; a truthy payload that is
    not a dict decodes to no options and an empty provenance. *)
Theorem C3_unrecognised_payload : forall H is_3p top_k,
  (forall kv, kv <> [] -> meta_branch (PDict kv) = None ->
     (forall l, str_key_get kv "options" <> Some (PList l)) ->
     str_key_in kv "action" = false -> str_key_in kv "selected" = false ->
     (exists c m, py_sorted_desc second
                    (map (fun kx => PTuple [fst kx; snd kx]) kv) = Err c m) ->
     parse_ai_recommendation H (PDict kv) is_3p top_k = Ok ([], "无法解析推荐"))
  /\ (forall v, py_truthy v = true -> (forall kv, v <> PDict kv) ->
        parse_ai_recommendation H v is_3p top_k = Ok ([], "")).
Proof.
  intros H is_3p top_k; split.
  - intros kv Hne Hm Ho Ha Hs [c [m Hsort]].
    unfold parse_ai_recommendation.
    replace (py_truthy (PDict kv)) with true by (destruct kv; [contradiction|reflexivity]).
    unfold parse_options; rewrite Hm; unfold other_branches.
    destruct (str_key_get kv "options") as [o|] eqn:Eo.
    + destruct o; try (exfalso; eapply Ho; reflexivity);
        rewrite Ha, Hs, Hsort; reflexivity.
    + rewrite Ha, Hs, Hsort; reflexivity.
  - intros v Ht Hnd.
    unfold parse_ai_recommendation; rewrite Ht.
    destruct v; try reflexivity.
    exfalso; eapply Hnd; reflexivity.
Qed.

(** C4: whatever the payload, the branch taken and [top_k], a decoded
    result holds at most two rendered entries. *)
Theorem C4_at_most_two : forall H reco is_3p top_k formatted info,
  parse_ai_recommendation H reco is_3p top_k = Ok (formatted, info) ->
  (List.length formatted <= 2)%nat.
Proof.
  intros H reco is_3p top_k formatted info E.
  unfold parse_ai_recommendation in E.
  destruct (negb (py_truthy reco)).
  - inversion E; subst; simpl; lia.
  - destruct (parse_options H reco is_3p) as [options inf].
    destruct (mapM _ (firstn 2 options)) as [l|c m] eqn:Em; simpl in E;
      [|discriminate].
    inversion E; subst.
    apply mapM_length in Em; rewrite Em.
    apply firstn_le_length.
Qed.

Lemma fmt_prob_not_none p : p <> PNone ->
  fmt_prob p = match py_float p with
               | Err _ _ => " (" ++ py_str p ++ ")"
               | Ok pv =>
                   let le a b := match num_cmp a b with
                                 | Some Lt | Some Eq => true | _ => false end in
                   if le (NI 0) (NF pv) && le (NF pv) (NI 1) then
                     " (" ++ PyFloat.fixed1 (PyFloat.mul pv (PyFloat.of_Z 100)) ++ "%)"
                   else if le (NI 1) (NF pv) && le (NF pv) (NI 100) then
                     " (" ++ PyFloat.fixed1 pv ++ "%)"
                   else " (" ++ PyFloat.repr pv ++ ")"
               end.
Proof. destruct p; try contradiction; reflexivity. Qed.

(** The float the literal [0.873] denotes. *)
Definition lit_0_873 : PyFloat.t := Lit.decimal_float false 873 (-3).

(** C6: [_fmt_prob] shows 0.873 as [" (87.3%)"], 42 as [" (42.0%)"] and
    None as nothing; a value [float()] rejects is shown as its [str()] in
    parentheses, so a str as itself. *)
Theorem C6_fmt_prob :
  fmt_prob (PFloat lit_0_873) = " (87.3%)"
  /\ fmt_prob (PInt 42) = " (42.0%)"
  /\ fmt_prob PNone = ""
  /\ (forall p c m, p <> PNone -> py_float p = Err c m ->
        fmt_prob p = " (" ++ py_str p ++ ")")
  /\ (forall s c m, py_float (PStr s) = Err c m ->
        fmt_prob (PStr s) = " (" ++ s ++ ")").
Proof.
  split; [vm_compute; reflexivity|].
  split; [vm_compute; reflexivity|].
  split; [reflexivity|].
  split.
  - intros p c m Hn Hf; rewrite (fmt_prob_not_none p Hn), Hf; reflexivity.
  - intros s c m Hf; rewrite (fmt_prob_not_none (PStr s) ltac:(discriminate)), Hf;
      reflexivity.
Qed.

(** C7 (code_bug): with dealer seat 0 and four seats, the score line
    labels seat index 2 [第3位(西家)], but its ledger line reads [第3位]
    without the wind: [nm = nm + '(我)' if i == self_seat else f'第{i+1}位']
    keeps the wind label only for the viewer's own seat. *)
Theorem C7_ledger_drops_wind : forall H,
  (exists lines,
     explain_lines H (four_seats PNone) empty_round PNone false 3 = Ok lines
     /\ nth_error lines 4 = Some ("分数: 第1位(东家) 25000分；第2位(南家) 25000分；"
                                   ++ "第3位(西家) 25000分；第4位(北家) 25000分")
     /\ nth_error lines 9 = Some "第3位 牌河: 无；副露: 无")
  /\ (exists lines,
        explain_lines H (four_seats (PInt 2)) empty_round PNone false 3 = Ok lines
        /\ nth_error lines 9 = Some "第3位(西家)(我) 牌河: 无；副露: 无").
Proof.
  intros H; split; eexists; split; try reflexivity; split; reflexivity.
Qed.

(** C8: a discard renders in the short form, verb and tile with no space,
    in the tuple, list and dict forms, and the bare ['dahai'] as [打]
    rather than the table's [打牌]; other calls take the long form with a
    space, as [碰 东]. *)
Theorem C8_discard_short_form :
  action_to_nl (PTuple [PStr "dahai"; PStr "5mr"]) = Ok (PStr "打红五万")
  /\ action_to_nl (PTuple [PStr "pon"; PStr "E"]) = Ok (PStr "碰 东")
  /\ action_to_nl (PStr "dahai") = Ok (PStr "打")
  /\ table_get ACTION_NL (PStr "dahai") = Ok (Some "打牌")
  /\ (forall t, t <> "" ->
        action_to_nl (PTuple [PStr "dahai"; PStr t]) = Ok (PStr ("打" ++ tile_nl t))
        /\ action_to_nl (PList [PStr "dahai"; PStr t]) = Ok (PStr ("打" ++ tile_nl t))
        /\ action_to_nl (PDict [(PStr "type", PStr "dahai"); (PStr "pai", PStr t)])
           = Ok (PStr ("打" ++ tile_nl t))
        /\ action_to_nl (PDict [(PStr "action", PStr "dahai"); (PStr "tile", PStr t)])
           = Ok (PStr ("打" ++ tile_nl t))).
Proof.
  split; [reflexivity|]. split; [reflexivity|]. split; [reflexivity|].
  split; [reflexivity|].
  intros t Ht; destruct t as [|c r]; [contradiction|].
  repeat split; cbn -[mjai_to_natural]; rewrite mjai_to_natural_str; reflexivity.
Qed.

(** C9: the successor of rank n is rank n+1 of the same suit for n < 9 and
    rank 1 for rank 9; winds go E, S, W, N, E and dragons P, F, C, P; every
    entry of the table stays in its indicator's group. *)
Theorem C9_dora_cycles :
  Forall (fun s =>
            Forall (fun n => table_get DORA_DORA_MARKERS (PStr (rank_code n s))
                             = Ok (Some (rank_code (S n) s))) [1; 2; 3; 4; 5; 6; 7; 8]%nat
            /\ table_get DORA_DORA_MARKERS (PStr (rank_code 9 s))
               = Ok (Some (rank_code 1 s))) ["m"; "p"; "s"]
  /\ map (fun t => table_get DORA_DORA_MARKERS (PStr t)) ["E"; "S"; "W"; "N"]
     = map (fun t => Ok (Some t)) ["S"; "W"; "N"; "E"]
  /\ map (fun t => table_get DORA_DORA_MARKERS (PStr t)) ["P"; "F"; "C"]
     = map (fun t => Ok (Some t)) ["F"; "C"; "P"]
  /\ Forall (fun kv => tile_group (fst kv) = tile_group (snd kv)) DORA_DORA_MARKERS.
Proof.
  split; [repeat constructor|].
  split; [reflexivity|]. split; [reflexivity|].
  repeat constructor.
Qed.

Lemma table_get_dora_str m : table_get DORA_DORA_MARKERS (PStr m) = Ok (dora_of m).
Proof.
  unfold table_get, dora_of; cbn -[find].
  destruct (find (fun kv => String.eqb (fst kv) m) DORA_DORA_MARKERS); reflexivity.
Qed.

Lemma dora_flat_map l :
  flat_map (fun o => match o with
                     | Some d => if py_truthy (PStr d) then [d] else []
                     | None => []
                     end) (map dora_of l)
  = flat_map (fun m => match dora_of m with Some d => [d] | None => [] end) l.
Proof.
  induction l as [|x l IH]; [reflexivity|].
  cbn [flat_map map]; rewrite IH.
  destruct (dora_of x) as [d|] eqn:Ed; [|reflexivity].
  rewrite (dora_values_nonempty x d Ed); reflexivity.
Qed.

(** C10: for a list of tile codes, the dora are the successors of the
    indicators the table knows, in input order; the others are dropped, so
    there are at most as many dora as indicators. *)
Theorem C10_dora_from_markers : forall l : list string,
  get_dora_from_markers (PList (map PStr l))
  = Ok (flat_map (fun m => match dora_of m with Some d => [d] | None => [] end) l)
  /\ (List.length (flat_map (fun m => match dora_of m with Some d => [d] | None => [] end) l)
      <= List.length l)%nat.
Proof.
  intros l; split.
  - unfold get_dora_from_markers.
    destruct l as [|m r]; [reflexivity|].
    replace (py_truthy (PList (map PStr (m :: r)))) with true by reflexivity.
    cbn [negb py_iter bind].
    rewrite (mapM_map_ok _ (fun x => match x with PStr s => dora_of s | _ => None end))
      by (intros x Hx; apply in_map_iff in Hx as [s [<- _]]; apply table_get_dora_str).
    cbn [bind]; f_equal.
    rewrite map_map; apply dora_flat_map.
  - induction l as [|x r IH]; [simpl; lia|].
    simpl; destruct (dora_of x); simpl; lia.
Qed.

(** ** The q_values/mask_bits path *)

Lemma SFltb_nan_l y : SFltb S754_nan y = false.
Proof. reflexivity. Qed.

Lemma SFltb_nan_r x : SFltb x S754_nan = false.
Proof. destruct x; reflexivity. Qed.

Lemma SFltb_key x y : x <> S754_nan -> y <> S754_nan ->
  (SFltb x y = true <-> key_lt (float_key x) (float_key y)).
Proof.
  intros Hx Hy.
  destruct x as [[]|[]| |[] mx ex]; try congruence;
  destruct y as [[]|[]| |[] my ey]; try congruence;
  unfold SFltb, SFcompare, float_key, key_lt; cbn -[Z.compare Pos.compare_cont];
  try (split; intros; first [lia | discriminate | reflexivity | (exfalso; lia)]).
  all: change (Pos.compare_cont Eq mx my) with (Pos.compare mx my);
    destruct (Z.compare_spec ex ey); destruct (Pos.compare_spec mx my); subst;
    cbn; split; intros; first [lia | discriminate | reflexivity | (exfalso; lia)].
Qed.

Lemma SFltb_true_not_nan x y : SFltb x y = true -> x <> S754_nan /\ y <> S754_nan.
Proof.
  intros H; split; intros ->;
    [rewrite SFltb_nan_l in H | rewrite SFltb_nan_r in H]; discriminate.
Qed.

Lemma SFltb_asym x y : SFltb x y = true -> SFltb y x = false.
Proof.
  intros H; destruct (SFltb y x) eqn:E; [|reflexivity].
  destruct (SFltb_true_not_nan x y H) as [Hx Hy].
  apply (SFltb_key x y Hx Hy) in H; apply (SFltb_key y x Hy Hx) in E.
  destruct (float_key x) as [[x1 x2] x3], (float_key y) as [[y1 y2] y3].
  cbn in H, E; lia.
Qed.

(** If [y < x] and not [y < z], then not [x < z]. *)
Lemma SFltb_step x y z : SFltb y x = true -> SFltb y z = false -> SFltb x z = false.
Proof.
  intros H1 H2; destruct (SFltb x z) eqn:E; [|reflexivity].
  destruct (SFltb_true_not_nan y x H1) as [Hy Hx].
  destruct (SFltb_true_not_nan x z E) as [_ Hz].
  apply (SFltb_key y x Hy Hx) in H1; apply (SFltb_key x z Hx Hz) in E.
  rewrite <- H2; symmetry; apply (SFltb_key y z Hy Hz).
  destruct (float_key x) as [[x1 x2] x3], (float_key y) as [[y1 y2] y3],
    (float_key z) as [[z1 z2] z3].
  cbn in *; lia.
Qed.

Lemma py_lt_float a b : py_lt (PFloat a) (PFloat b) = Ok (SFltb a b).
Proof. reflexivity. Qed.

Lemma insert_desc_float x f acc :
  Forall float_keyed acc ->
  exists res, insert_desc x (PFloat f) acc = Ok res
    /\ Permutation res ((x, PFloat f) :: acc)
    /\ (ForallOrdPairs key_not_lt (map snd acc) -> ForallOrdPairs key_not_lt (map snd res)).
Proof.
  induction acc as [|[y ky] r IH]; intros Hf.
  - exists [(x, PFloat f)]; split; [reflexivity|]; split; [reflexivity|].
    intros _; repeat constructor.
  - inversion Hf as [|? ? [g Hg] Hr]; subst; cbn in Hg; subst ky.
    cbn [insert_desc]; rewrite py_lt_float; cbn [bind].
    destruct (SFltb g f) eqn:E.
    + exists ((x, PFloat f) :: (y, PFloat g) :: r); split; [reflexivity|].
      split; [reflexivity|].
      intros Hs; cbn [map snd] in *.
      constructor; [|exact Hs].
      inversion Hs as [|? ? Hg' _]; subst.
      constructor.
      * exists f, g; repeat split; apply SFltb_asym; exact E.
      * apply Forall_forall; intros z Hz.
        eapply Forall_forall in Hg'; [|exact Hz].
        destruct Hg' as [fa [fb [Ha [Hb Hl]]]]; injection Ha as <-.
        exists f, fb; repeat split; [exact Hb|].
        exact (SFltb_step f g fb E Hl).
    + destruct (IH Hr) as [res' [Hres [Hp Hs]]].
      rewrite Hres; cbn [bind].
      exists ((y, PFloat g) :: res'); split; [reflexivity|]; split.
      * eapply perm_trans; [apply perm_skip; exact Hp | apply perm_swap].
      * intros Hacc; cbn [map snd] in *.
        inversion Hacc as [|? ? Hg' Hr']; subst.
        constructor; [|apply Hs; exact Hr'].
        apply Forall_forall; intros z Hz.
        apply in_map_iff in Hz as [[a kz] [<- Ha]].
        apply (Permutation_in _ Hp) in Ha; destruct Ha as [Ha|Ha].
        -- injection Ha as <- <-; exists g, f; repeat split; exact E.
        -- eapply Forall_forall in Hg'; [exact Hg'|].
           apply in_map_iff; exists (a, kz); split; [reflexivity | exact Ha].
Qed.

Lemma insert_all_float l acc :
  Forall float_keyed l -> Forall float_keyed acc ->
  ForallOrdPairs key_not_lt (map snd acc) ->
  exists res, insert_all l acc = Ok res /\ Permutation res (l ++ acc)
              /\ ForallOrdPairs key_not_lt (map snd res).
Proof.
  revert acc; induction l as [|[x kx] l IH]; intros acc Hl Hacc Hs.
  - exists acc; split; [reflexivity|]; split; [reflexivity | exact Hs].
  - inversion Hl as [|? ? [f Hf] Hl']; subst; cbn in Hf; subst kx.
    destruct (insert_desc_float x f acc Hacc) as [acc' [Hi [Hp Hs']]].
    cbn [insert_all]; rewrite Hi; cbn [bind].
    destruct (IH acc' Hl') as [res [Hr [Hp' Hs'']]].
    + apply Forall_forall; intros p Hp0.
      apply (Permutation_in _ Hp) in Hp0; destruct Hp0 as [<-|Hp0].
      * exists f; reflexivity.
      * eapply Forall_forall; [exact Hacc | exact Hp0].
    + apply Hs'; exact Hs.
    + exists res; split; [exact Hr|]; split; [|exact Hs''].
      eapply perm_trans; [exact Hp'|].
      eapply perm_trans; [apply Permutation_app_head; exact Hp|].
      apply Permutation_sym, Permutation_middle.
Qed.

Lemma prob_of_ok o : opt_ok o -> prob_of o = Some (opt_prob o).
Proof. intros [n [p ->]]; reflexivity. Qed.

Lemma mapM_second l : Forall opt_ok l ->
  mapM second l = Ok (map (fun o => PFloat (opt_prob o)) l).
Proof.
  induction l as [|o l IH]; intros Hl; [reflexivity|].
  inversion Hl as [|? ? [n [p ->]] Hl']; subst.
  cbn [mapM]; rewrite (IH Hl'); reflexivity.
Qed.

Lemma sorted_of_keys res :
  Forall (fun p => snd p = PFloat (opt_prob (fst p)) /\ opt_ok (fst p)) res ->
  ForallOrdPairs key_not_lt (map snd res) -> sorted_by_prob (map fst res).
Proof.
  unfold sorted_by_prob.
  induction res as [|[o k] r IH]; intros Hg Hs; [constructor|].
  inversion Hg as [|? ? [Hk Ho] Hg']; subst.
  inversion Hs as [|? ? Hh Hs']; subst.
  cbn in *; subst k.
  constructor; [|apply IH; assumption].
  apply Forall_forall; intros o' Ho'.
  apply in_map_iff in Ho' as [[o2 k2] [<- Hin]].
  assert (Hin' : In k2 (map snd r))
    by (apply in_map_iff; exists (o2, k2); split; [reflexivity | exact Hin]).
  eapply Forall_forall in Hh; [|exact Hin'].
  eapply Forall_forall in Hg'; [|exact Hin].
  destruct Hg' as [Hk2 Ho2]; cbn in Hk2, Ho2; subst k2.
  destruct Hh as [fa [fb [Ha [Hb Hl]]]].
  injection Ha as <-; injection Hb as <-.
  exists (opt_prob o), (opt_prob o2); cbn.
  rewrite (prob_of_ok o Ho), (prob_of_ok o2 Ho2); repeat split; exact Hl.
Qed.

(** Sorting decoded options by probability, descending, never raises,
    permutes them and leaves them in order. *)
Lemma sorted_desc_opts l : Forall opt_ok l ->
  exists s, py_sorted_desc second l = Ok s /\ Permutation s l /\ sorted_by_prob s.
Proof.
  intros Hl; unfold py_sorted_desc; rewrite (mapM_second l Hl); cbn [bind].
  replace (combine l (map (fun o => PFloat (opt_prob o)) l))
    with (map (fun o => (o, PFloat (opt_prob o))) l)
    by (clear; induction l as [|a l IH]; cbn; congruence).
  destruct (insert_all_float (map (fun o => (o, PFloat (opt_prob o))) l) [])
    as [res [Hr [Hp Hs]]].
  - apply Forall_forall; intros p Hp.
    apply in_map_iff in Hp as [o [<- _]]; exists (opt_prob o); reflexivity.
  - constructor.
  - constructor.
  - rewrite Hr; cbn [bind]; rewrite app_nil_r in Hp.
    exists (map fst res); split; [reflexivity|]; split.
    + apply (Permutation_map fst) in Hp.
      rewrite map_map in Hp; cbn in Hp; rewrite map_id in Hp; exact Hp.
    + apply sorted_of_keys; [|exact Hs].
      apply Forall_forall; intros p Hp0.
      apply (Permutation_in _ Hp) in Hp0.
      apply in_map_iff in Hp0 as [o [<- Ho]]; cbn; split; [reflexivity|].
      eapply Forall_forall; [exact Hl | exact Ho].
Qed.

Lemma spec_pairs_ok names i mask ws l :
  spec_pairs names i mask ws = Ok l ->
  Forall opt_ok l /\ List.length l = count_true mask
  /\ map prob_of l = map Some (zero_fill ws (count_true mask)).
Proof.
  revert i ws l; induction mask as [|b r IH]; intros i ws l E.
  - cbn in E; injection E as <-; split; [constructor | split; reflexivity].
  - destruct b; cbn [spec_pairs count_true] in *.
    + destruct (nth_error names i) as [nm|]; [|discriminate].
      destruct (spec_pairs names (S i) r (tl ws)) as [rest|c m] eqn:Er;
        cbn [bind] in E; [|discriminate].
      injection E as <-.
      destruct (IH _ _ _ Er) as [H1 [H2 H3]].
      split; [constructor; [do 2 eexists; reflexivity | exact H1]|].
      split; cbn; [congruence | rewrite H3; reflexivity].
    + exact (IH _ _ _ E).
Qed.

Lemma nth_weight_hd (ws : list PyFloat.t) q :
  match nth_error ws q with Some x => x | None => PyFloat.zero end
  = hd PyFloat.zero (skipn q ws).
Proof. revert q; induction ws as [|w ws IH]; intros [|q]; cbn; auto. Qed.

Lemma tl_skipn {A} (ws : list A) q : tl (skipn q ws) = skipn (S q) ws.
Proof. revert q; induction ws as [|w ws IH]; intros [|q]; cbn; auto. Qed.

Lemma manual_pairs_ok ml i mask ws q :
  Forall opt_ok (manual_pairs ml i mask ws q)
  /\ List.length (manual_pairs ml i mask ws q) = count_true mask
  /\ map prob_of (manual_pairs ml i mask ws q)
     = map Some (zero_fill (skipn q ws) (count_true mask)).
Proof.
  revert i q; induction mask as [|b r IH]; intros i q; [repeat constructor|].
  destruct b; cbn [manual_pairs count_true]; [|apply IH].
  destruct (IH (S i) (S q)) as [H1 [H2 H3]].
  split; [constructor; [do 2 eexists; reflexivity | exact H1]|].
  split; cbn [List.length]; [congruence|].
  cbn [map zero_fill]; rewrite H3, tl_skipn, nth_weight_hd; reflexivity.
Qed.

Lemma meta_to_options_inv H ms is_3p o :
  meta_to_options H ms is_3p = Ok o ->
  exists qv mb mask ws l,
    str_key_get ms "q_values" = Some qv /\ str_key_get ms "mask_bits" = Some mb
    /\ mask_bits_to_bool_list H mb = Ok mask /\ softmax H qv = Ok ws
    /\ spec_pairs (if is_3p then MJAI_MASK_LIST_3P H else MJAI_MASK_LIST H) 0 mask ws = Ok l
    /\ py_sorted_desc second l = Ok o.
Proof.
  unfold meta_to_options, dict_getitem_str.
  destruct (str_key_get ms "q_values") as [qv|] eqn:E1; [|intros E; discriminate E].
  destruct (str_key_get ms "mask_bits") as [mb|] eqn:E2; [|intros E; discriminate E].
  cbn [bind].
  destruct (mask_bits_to_bool_list H mb) as [mask|c m] eqn:E3; [|intros E; discriminate E].
  destruct (softmax H qv) as [ws|c m] eqn:E4; [|intros E; discriminate E].
  cbn [bind].
  destruct (spec_pairs _ 0 mask ws) as [l|c m] eqn:E5; [|intros E; discriminate E].
  cbn [bind]; intros E; exists qv, mb, mask, ws, l; repeat split; assumption.
Qed.

Lemma meta_branch_keys reco ms : meta_branch reco = Some ms ->
  (exists qv, str_key_get ms "q_values" = Some qv)
  /\ (exists mb, str_key_get ms "mask_bits" = Some mb).
Proof.
  unfold meta_branch; destruct (meta_source_of reco) as [m|]; [|discriminate].
  destruct (py_truthy (PDict m) && str_key_in m "q_values" && str_key_in m "mask_bits")
    eqn:E; [|discriminate].
  intros Hm; injection Hm as <-.
  apply andb_prop in E as [E Hb]; apply andb_prop in E as [_ Hq].
  unfold str_key_in in Hq, Hb.
  destruct (str_key_get m "q_values"); [|discriminate].
  destruct (str_key_get m "mask_bits"); [|discriminate].
  split; eexists; reflexivity.
Qed.

(** C5: on the q_values/mask_bits path (a nested [meta] record or the
    top-level keys), the options come out sorted by descending
    probability, never more of them than true mask positions; once the
    mask and the weights decode, there is one option per true position
    and their probabilities are the weights in order followed by zeros for
    the positions past the last weight. *)
Theorem C5_meta_path : forall H reco is_3p ms,
  meta_branch reco = Some ms ->
  let options := fst (parse_options H reco is_3p) in
  sorted_by_prob options
  /\ (forall mb mask, str_key_get ms "mask_bits" = Some mb ->
        mask_bits_to_bool_list H mb = Ok mask ->
        (List.length options <= count_true mask)%nat)
  /\ (forall mb qv mask ws, str_key_get ms "mask_bits" = Some mb ->
        str_key_get ms "q_values" = Some qv ->
        mask_bits_to_bool_list H mb = Ok mask -> softmax H qv = Ok ws ->
        List.length options = count_true mask
        /\ Permutation (map prob_of options) (map Some (zero_fill ws (count_true mask)))).
Proof.
  intros H reco is_3p ms Hm options; subst options.
  destruct (meta_branch_keys reco ms Hm) as [[qv0 Hq0] [mb0 Hb0]].
  unfold parse_options; rewrite Hm; unfold decode_meta.
  destruct (meta_to_options H ms is_3p) as [o|c e] eqn:E1.
  - apply meta_to_options_inv in E1
      as (qv & mb & mask & ws & l & Hq & Hb & Hmask & Hws & Hl & Hs).
    destruct (spec_pairs_ok _ _ _ _ _ Hl) as [Hok [Hlen Hprob]].
    destruct (sorted_desc_opts l Hok) as [s [Hs' [Hp Hsort]]].
    rewrite Hs in Hs'; injection Hs' as <-; cbn [fst].
    split; [exact Hsort|]; split.
    + intros mb' mask' Hb' Hm'.
      rewrite Hb in Hb'; injection Hb' as <-; rewrite Hmask in Hm'; injection Hm' as <-.
      rewrite (Permutation_length Hp); lia.
    + intros mb' qv' mask' ws' Hb' Hq' Hm' Hw'.
      rewrite Hb in Hb'; injection Hb' as <-; rewrite Hmask in Hm'; injection Hm' as <-.
      rewrite Hq in Hq'; injection Hq' as <-; rewrite Hws in Hw'; injection Hw' as <-.
      split; [rewrite (Permutation_length Hp); exact Hlen|].
      rewrite <- Hprob; apply Permutation_map; exact Hp.
  - unfold manual_parse; rewrite Hq0, Hb0.
    destruct (mask_bits_to_bool_list H mb0) as [mask|c2 e2] eqn:Hmask; cbn [bind];
      [destruct (softmax H qv0) as [ws|c2 e2] eqn:Hws; cbn [bind]|].
    + destruct (manual_pairs_ok (if is_3p then MJAI_MASK_LIST_3P H else MJAI_MASK_LIST H)
                  0 mask ws 0) as [Hok [Hlen Hprob]].
      destruct (sorted_desc_opts _ Hok) as [s [Hs [Hp Hsort]]].
      rewrite Hs; cbn [fst].
      split; [exact Hsort|]; split.
      * intros mb' mask' Hb' Hm'.
        injection Hb' as <-; rewrite Hmask in Hm'; injection Hm' as <-.
        rewrite (Permutation_length Hp); lia.
      * intros mb' qv' mask' ws' Hb' Hq' Hm' Hw'.
        injection Hb' as <-; rewrite Hmask in Hm'; injection Hm' as <-.
        injection Hq' as <-; rewrite Hws in Hw'; injection Hw' as <-.
        split; [rewrite (Permutation_length Hp); exact Hlen|].
        cbn [skipn] in Hprob.
        rewrite <- Hprob; apply Permutation_map; exact Hp.
    + cbn [fst]; split; [constructor|]; split.
      * intros; cbn; lia.
      * intros mb' qv' mask' ws' Hb' Hq' Hm' Hw'.
        injection Hb' as <-; rewrite Hmask in Hm'; injection Hm' as <-.
        injection Hq' as <-; rewrite Hws in Hw'; discriminate.
    + cbn [fst]; split; [constructor|]; split.
      * intros; cbn; lia.
      * intros mb' qv' mask' ws' Hb' Hq' Hm' Hw'.
        injection Hb' as <-; rewrite Hmask in Hm'; discriminate.
Qed.

(** ** Witnesses *)

Lemma C3_witness :
  parse_ai_recommendation sample_helper
    (PDict [(PStr "a", PInt 1); (PStr "b", PStr "x")]) false 3
  = Ok ([], "无法解析推荐")
  /\ parse_ai_recommendation sample_helper (PInt 5) false 3 = Ok ([], "").
Proof.
  split.
  - apply (proj1 (C3_unrecognised_payload sample_helper false 3)).
    + discriminate.
    + reflexivity.
    + intros l; discriminate.
    + reflexivity.
    + reflexivity.
    + exists TypeError,
        ("'<' not supported between instances of " ++ str_repr "int" ++ " and "
           ++ str_repr "str"); reflexivity.
  - apply (proj2 (C3_unrecognised_payload sample_helper false 3)).
    + reflexivity.
    + intros kv; discriminate.
Defined.

Lemma C4_witness :
  exists formatted info,
    parse_ai_recommendation sample_helper
      (PDict [(PStr "options", PList [PTuple [PStr "1m"; PInt 1];
                                       PTuple [PStr "2m"; PInt 2];
                                       PTuple [PStr "3m"; PInt 3]])]) false 3
    = Ok (formatted, info)
    /\ (List.length formatted <= 2)%nat.
Proof.
  eexists _, _; split; [reflexivity|].
  eapply (C4_at_most_two sample_helper
           (PDict [(PStr "options", PList [PTuple [PStr "1m"; PInt 1];
                                            PTuple [PStr "2m"; PInt 2];
                                            PTuple [PStr "3m"; PInt 3]])]) false 3).
  reflexivity.
Defined.

Lemma C5_witness :
  sorted_by_prob (fst (parse_options sample_helper sample_meta_reco false))
  /\ List.length (fst (parse_options sample_helper sample_meta_reco false))
     = count_true [true; false; true; true].
Proof.
  assert (Hb : meta_branch sample_meta_reco = Some sample_meta) by reflexivity.
  destruct (C5_meta_path sample_helper sample_meta_reco false sample_meta Hb)
    as [Hs [_ Hz]].
  split; [exact Hs|].
  refine (proj1 (Hz (PInt 13)
                    (PList [PFloat (Lit.decimal_float false 3 (-1));
                            PFloat (Lit.decimal_float false 7 (-1))])
                    [true; false; true; true]
                    [Lit.decimal_float false 3 (-1); Lit.decimal_float false 7 (-1)]
                    _ _ _ _)); reflexivity.
Defined.

Lemma C6_witness : fmt_prob (PStr "abc") = " (abc)".
Proof.
  apply (proj2 (proj2 (proj2 (proj2 C6_fmt_prob))) "abc" ValueError
           ("could not convert string to float: " ++ str_repr "abc")).
  reflexivity.
Defined.

Lemma C8_witness :
  action_to_nl (PDict [(PStr "type", PStr "dahai"); (PStr "pai", PStr "5mr")])
  = Ok (PStr ("打" ++ tile_nl "5mr")).
Proof.
  apply (proj2 (proj2 (proj2 (proj2 C8_discard_short_form))) "5mr").
  discriminate.
Defined.

(** ** The token providers *)

Lemma token_is_fresh_run {S} (env : auth_env) tok d e b (s : S) log :
  tok <> PNone -> jwt_decode env tok = Done d -> dict_getitem_str d "exp" = Ok e ->
  py_lt e (PFloat (clock env log)) = Ok b ->
  token_is_fresh env tok (s, log)
  = (Done (negb b), (s, (log ++ if b then [EvTime; EvTime] else [EvTime])%list)).
Proof.
  intros Hn Hj He Hl.
  destruct tok; try congruence;
    unfold token_is_fresh, mbind, of_outcome, of_result, time_time, call, mret;
    rewrite Hj, He; cbn [fst snd]; rewrite Hl;
    destruct b; cbn [negb fst snd]; rewrite <- ?app_assoc; reflexivity.
Qed.

Lemma token_is_fresh_decode_err {S} (env : auth_env) tok ex (s : S) log :
  tok <> PNone -> jwt_decode env tok = Raised ex ->
  token_is_fresh env tok (s, log) = (Raised ex, (s, log)).
Proof.
  intros Hn Hj.
  destruct tok; try congruence;
    unfold token_is_fresh, mbind, of_outcome; rewrite Hj; reflexivity.
Qed.

Lemma token_is_fresh_exp_err {S} (env : auth_env) tok d c m (s : S) log :
  tok <> PNone -> jwt_decode env tok = Done d -> dict_getitem_str d "exp" = Err c m ->
  token_is_fresh env tok (s, log) = (Raised (ExcPy c m), (s, log)).
Proof.
  intros Hn Hj He.
  destruct tok; try congruence;
    unfold token_is_fresh, mbind, of_outcome, of_result; rewrite Hj, He; reflexivity.
Qed.

Lemma dict_get_or_none_cons p r k :
  dict_get_or_none (p :: r) k = if String.eqb (fst p) k then snd p else dict_get_or_none r k.
Proof. unfold dict_get_or_none; cbn [find]; destruct (String.eqb (fst p) k); reflexivity. Qed.

Lemma dict_set_str_cons p r k v :
  dict_set_str (p :: r) k v
  = if String.eqb (fst p) k
    then (k, v) :: map (fun q => if String.eqb (fst q) k then (k, v) else q) r
    else p :: dict_set_str r k v.
Proof.
  unfold dict_set_str; cbn [existsb map].
  destruct (String.eqb (fst p) k); cbn [orb]; [reflexivity|].
  destruct (existsb _ r); reflexivity.
Qed.

Lemma dict_get_map_other r k k' v :
  k' <> k ->
  dict_get_or_none (map (fun q => if String.eqb (fst q) k then (k, v) else q) r) k'
  = dict_get_or_none r k'.
Proof.
  intros Hne. induction r as [|[a b] r IH]; [reflexivity|].
  cbn [map]; rewrite !dict_get_or_none_cons; cbn [fst snd].
  destruct (String.eqb a k) eqn:E.
  - apply String.eqb_eq in E; subst a; cbn [fst].
    replace (String.eqb k k') with false by (symmetry; apply String.eqb_neq; congruence).
    exact IH.
  - cbn [fst]; destruct (String.eqb a k'); [reflexivity|exact IH].
Qed.

Lemma dict_get_set_same t k v : dict_get_or_none (dict_set_str t k v) k = v.
Proof.
  induction t as [|[a b] r IH].
  - unfold dict_set_str, dict_get_or_none; cbn; rewrite String.eqb_refl; reflexivity.
  - rewrite dict_set_str_cons; cbn [fst]; destruct (String.eqb a k) eqn:E.
    + rewrite dict_get_or_none_cons; cbn [fst snd]; rewrite String.eqb_refl; reflexivity.
    + rewrite dict_get_or_none_cons; cbn [fst]; rewrite E; exact IH.
Qed.

Lemma dict_get_set_other t k k' v :
  k' <> k -> dict_get_or_none (dict_set_str t k v) k' = dict_get_or_none t k'.
Proof.
  intros Hne. induction t as [|[a b] r IH].
  - unfold dict_set_str, dict_get_or_none; cbn.
    replace (String.eqb k k') with false by (symmetry; apply String.eqb_neq; congruence).
    reflexivity.
  - rewrite dict_set_str_cons; cbn [fst]; destruct (String.eqb a k) eqn:E.
    + apply String.eqb_eq in E; subst a.
      rewrite !dict_get_or_none_cons; cbn [fst snd].
      replace (String.eqb k k') with false by (symmetry; apply String.eqb_neq; congruence).
      apply dict_get_map_other; exact Hne.
    + rewrite !dict_get_or_none_cons; cbn [fst].
      destruct (String.eqb a k'); [reflexivity|exact IH].
Qed.

Lemma refresh_interactive_hit env name cid sc t log tok :
  fresh_entry env t log name tok ->
  DefaultAuthProvider.refresh_interactive env name cid sc (t, log)
  = (Done tt, (t, (log ++ [EvTime])%list)).
Proof.
  intros (Hg & Hn & d & e & Hj & He & Hl).
  unfold DefaultAuthProvider.refresh_interactive, DefaultAuthProvider._get_token,
    DefaultAuthProvider._is_fresh.
  cbn [mbind mget mret fst snd]; rewrite Hg; unfold mbind at 1.
  rewrite (token_is_fresh_run env tok d e false t log Hn Hj He Hl).
  reflexivity.
Qed.

Lemma refresh_azure_hit env t log tok :
  fresh_entry env t log "azure" tok ->
  DefaultAuthProvider.refresh_azure_openai_token env (t, log)
  = (Done tt, (t, (log ++ [EvTime])%list)).
Proof.
  intros (Hg & Hn & d & e & Hj & He & Hl).
  unfold DefaultAuthProvider.refresh_azure_openai_token, DefaultAuthProvider._get_token,
    DefaultAuthProvider._is_fresh.
  cbn [mbind mget mret fst snd]; rewrite Hg; unfold mbind at 1.
  rewrite (token_is_fresh_run env tok d e false t log Hn Hj He Hl).
  reflexivity.
Qed.

(** Past the freshness check of a stale entry, a refresher goes on from
    the log [log']. *)
Lemma is_fresh_stale env t log name log' :
  stale_entry env t log name log' ->
  DefaultAuthProvider._is_fresh env (dict_get_or_none t name) (t, log)
  = (Done false, (t, log')).
Proof.
  intros [[Hg ->]|(tok & d & e & Hg & Hn & Hj & He & Hl & ->)]; rewrite Hg.
  - reflexivity.
  - unfold DefaultAuthProvider._is_fresh.
    rewrite (token_is_fresh_run env tok d e true t log Hn Hj He Hl); reflexivity.
Qed.

Lemma refresh_interactive_stale env name cid sc t log log' :
  stale_entry env t log name log' ->
  DefaultAuthProvider.refresh_interactive env name cid sc (t, log)
  = (result <-- call (EvAcquire cid sc)
                  (fun log => acquire_token_interactive env log cid sc) ;;
     if str_key_in result "access_token" then
       tok <-- of_result (dict_getitem_str result "access_token") ;;
       DefaultAuthProvider._set_token name tok
     else mraise (ExcException "Failed to acquire token")) (t, log').
Proof.
  intros Hs.
  unfold DefaultAuthProvider.refresh_interactive, DefaultAuthProvider._get_token.
  cbn [mbind mget mret fst snd]; unfold mbind at 1; rewrite (is_fresh_stale env t log name log' Hs).
  reflexivity.
Qed.

Lemma refresh_azure_stale env t log log' :
  stale_entry env t log "azure" log' ->
  DefaultAuthProvider.refresh_azure_openai_token env (t, log)
  = (tok <-- call (EvCliToken DefaultAuthProvider.azure_scope)
               (fun log => cli_get_token env log DefaultAuthProvider.azure_scope) ;;
     DefaultAuthProvider._set_token "azure" tok) (t, log').
Proof.
  intros Hs.
  unfold DefaultAuthProvider.refresh_azure_openai_token, DefaultAuthProvider._get_token.
  cbn [mbind mget mret fst snd]; unfold mbind at 1; rewrite (is_fresh_stale env t log "azure" log' Hs).
  reflexivity.
Qed.

Lemma login_ok env name cid sc t log' r tok :
  acquire_token_interactive env log' cid sc = Done r ->
  str_key_get r "access_token" = Some tok ->
  (result <-- call (EvAcquire cid sc)
                (fun log => acquire_token_interactive env log cid sc) ;;
   if str_key_in result "access_token" then
     tok <-- of_result (dict_getitem_str result "access_token") ;;
     DefaultAuthProvider._set_token name tok
   else mraise (ExcException "Failed to acquire token")) (t, log')
  = (Done tt, (dict_set_str t name tok, (log' ++ [EvAcquire cid sc])%list)).
Proof.
  intros Ha Hk.
  cbn [mbind call fst snd]; rewrite Ha.
  unfold str_key_in, dict_getitem_str; rewrite Hk; reflexivity.
Qed.

Lemma is_fresh_broken env t log tok ex :
  tok <> PNone ->
  (jwt_decode env tok = Raised ex \/
   exists d c m, jwt_decode env tok = Done d /\ dict_getitem_str d "exp" = Err c m
                 /\ ex = ExcPy c m) ->
  DefaultAuthProvider._is_fresh env tok (t, log) = (Raised ex, (t, log)).
Proof.
  intros Hn [Hj|(d & c & m & Hj & He & ->)]; unfold DefaultAuthProvider._is_fresh.
  - apply token_is_fresh_decode_err; assumption.
  - apply (token_is_fresh_exp_err env tok d); assumption.
Qed.

(** The getter of a cache entry refreshed through an MSAL login, once its
    entry is found stale. *)
Lemma get_interactive_stale env name cid sc t log log' :
  stale_entry env t log name log' ->
  (_ <-- DefaultAuthProvider.refresh_interactive env name cid sc ;;
   DefaultAuthProvider._get_token name) (t, log)
  = let log'' := (log' ++ [EvAcquire cid sc])%list in
    match acquire_token_interactive env log' cid sc with
    | Done r =>
        match str_key_get r "access_token" with
        | Some tok => (Done tok, (dict_set_str t name tok, log''))
        | None => (Raised (ExcException "Failed to acquire token"), (t, log''))
        end
    | Raised ex => (Raised ex, (t, log''))
    end.
Proof.
  intros Hs; unfold mbind at 1.
  rewrite (refresh_interactive_stale env name cid sc t log log' Hs).
  cbn [mbind call fst snd].
  destruct (acquire_token_interactive env log' cid sc) as [r|ex]; [|reflexivity].
  unfold str_key_in, dict_getitem_str.
  destruct (str_key_get r "access_token") as [tok|]; [|reflexivity].
  unfold DefaultAuthProvider._get_token; cbn.
  rewrite dict_get_set_same; reflexivity.
Qed.

Lemma get_interactive_broken env name cid sc t log tok ex :
  dict_get_or_none t name = tok -> tok <> PNone ->
  (jwt_decode env tok = Raised ex \/
   exists d c m, jwt_decode env tok = Done d /\ dict_getitem_str d "exp" = Err c m
                 /\ ex = ExcPy c m) ->
  (_ <-- DefaultAuthProvider.refresh_interactive env name cid sc ;;
   DefaultAuthProvider._get_token name) (t, log) = (Raised ex, (t, log)).
Proof.
  intros Hg Hn Hb.
  assert (Hr : DefaultAuthProvider.refresh_interactive env name cid sc (t, log)
               = (Raised ex, (t, log))).
  { unfold DefaultAuthProvider.refresh_interactive, DefaultAuthProvider._get_token.
    cbn [mbind mget mret fst snd]; rewrite Hg; unfold mbind at 1; cbv beta.
    rewrite (is_fresh_broken env t log tok ex Hn Hb); reflexivity. }
  unfold mbind at 1; rewrite Hr; reflexivity.
Qed.

Lemma get_azure_stale env t log log' :
  stale_entry env t log "azure" log' ->
  DefaultAuthProvider.get_azure_openai_token env (t, log)
  = let log'' := (log' ++ [EvCliToken DefaultAuthProvider.azure_scope])%list in
    match cli_get_token env log' DefaultAuthProvider.azure_scope with
    | Done tok => (Done tok, (dict_set_str t "azure" tok, log''))
    | Raised ex => (Raised ex, (t, log''))
    end.
Proof.
  intros Hs; unfold DefaultAuthProvider.get_azure_openai_token, mbind at 1.
  rewrite (refresh_azure_stale env t log log' Hs).
  cbn [mbind call fst snd].
  destruct (cli_get_token env log' DefaultAuthProvider.azure_scope) as [tok|ex];
    [|reflexivity].
  unfold DefaultAuthProvider._get_token; cbn.
  rewrite dict_get_set_same; reflexivity.
Qed.

Lemma get_azure_broken env t log tok ex :
  dict_get_or_none t "azure" = tok -> tok <> PNone ->
  (jwt_decode env tok = Raised ex \/
   exists d c m, jwt_decode env tok = Done d /\ dict_getitem_str d "exp" = Err c m
                 /\ ex = ExcPy c m) ->
  DefaultAuthProvider.get_azure_openai_token env (t, log) = (Raised ex, (t, log)).
Proof.
  intros Hg Hn Hb.
  assert (Hr : DefaultAuthProvider.refresh_azure_openai_token env (t, log)
               = (Raised ex, (t, log))).
  { unfold DefaultAuthProvider.refresh_azure_openai_token, DefaultAuthProvider._get_token.
    cbn [mbind mget mret fst snd]; rewrite Hg; unfold mbind at 1; cbv beta.
    rewrite (is_fresh_broken env t log tok ex Hn Hb); reflexivity. }
  unfold DefaultAuthProvider.get_azure_openai_token, mbind at 1; rewrite Hr; reflexivity.
Qed.

Ltac unfold_getters :=
  unfold DefaultAuthProvider.get_graph_token, DefaultAuthProvider.get_substrate_token,
    DefaultAuthProvider.get_substrate_llm_token, DefaultAuthProvider.refresh_graph_token,
    DefaultAuthProvider.refresh_substrate_token,
    DefaultAuthProvider.refresh_substrate_llm_token.

Ltac case_getter Hin :=
  cbn [In default_getters interactive_getters input_getters] in Hin;
  repeat match type of Hin with _ \/ _ => destruct Hin as [Hin|Hin] end;
  [..|contradiction]; injection Hin; repeat (intros <-).

(** X1: [DefaultAuthProvider]: a getter whose cache entry holds a token
    that is not expired returns that token; it reads the clock once, makes
    no login and leaves the cache as it is. *)
Theorem default_getter_cache_hit name get env t log tok :
  In (name, get) default_getters -> fresh_entry env t log name tok ->
  get env (t, log) = (Done tok, (t, (log ++ [EvTime])%list)).
Proof.
  intros Hin Hf; pose proof Hf as [Hg _].
  case_getter Hin.
  - unfold DefaultAuthProvider.get_azure_openai_token, mbind at 1.
    rewrite (refresh_azure_hit env t log tok Hf).
    unfold DefaultAuthProvider._get_token; cbn; rewrite Hg; reflexivity.
  - unfold_getters; unfold mbind at 1.
    rewrite (refresh_interactive_hit env _ _ _ t log tok Hf).
    unfold DefaultAuthProvider._get_token; cbn; rewrite Hg; reflexivity.
  - unfold_getters; unfold mbind at 1.
    rewrite (refresh_interactive_hit env _ _ _ t log tok Hf).
    unfold DefaultAuthProvider._get_token; cbn; rewrite Hg; reflexivity.
  - unfold_getters; unfold mbind at 1.
    rewrite (refresh_interactive_hit env _ _ _ t log tok Hf).
    unfold DefaultAuthProvider._get_token; cbn; rewrite Hg; reflexivity.
Qed.

(** X2: [DefaultAuthProvider]: a Graph, Substrate or Substrate LLM getter
    whose cache entry is missing or expired logs in once, through the app
    with its client id and scopes; when the login result has an
    ['access_token'], that token is stored under the entry and returned. *)
Theorem default_getter_login name cid sc get env t log log' r tok :
  In (name, cid, sc, get) interactive_getters -> stale_entry env t log name log' ->
  acquire_token_interactive env log' cid sc = Done r ->
  str_key_get r "access_token" = Some tok ->
  get env (t, log)
  = (Done tok, (dict_set_str t name tok, (log' ++ [EvAcquire cid sc])%list)).
Proof.
  intros Hin Hs Ha Hk.
  case_getter Hin; unfold_getters;
    rewrite (get_interactive_stale env _ _ _ t log log' Hs); cbv zeta;
    rewrite Ha, Hk; reflexivity.
Qed.

(** X3: [DefaultAuthProvider]: when that login raises, or returns no
    ['access_token'] (then [Exception("Failed to acquire token")] is
    raised), the getter raises and the cache is left as it was. *)
Theorem default_getter_login_fails name cid sc get env t log log' ex :
  In (name, cid, sc, get) interactive_getters -> stale_entry env t log name log' ->
  (acquire_token_interactive env log' cid sc = Raised ex \/
   exists r, acquire_token_interactive env log' cid sc = Done r /\
             str_key_get r "access_token" = None /\
             ex = ExcException "Failed to acquire token") ->
  get env (t, log) = (Raised ex, (t, (log' ++ [EvAcquire cid sc])%list)).
Proof.
  intros Hin Hs Ha.
  case_getter Hin; unfold_getters;
    rewrite (get_interactive_stale env _ _ _ t log log' Hs); cbv zeta;
    (destruct Ha as [Ha|(r & Ha & Hk & ->)]; rewrite Ha; [|rewrite Hk]; reflexivity).
Qed.

(** X4: [DefaultAuthProvider.get_azure_openai_token]: with a missing or
    expired ["azure"] entry it asks the Azure CLI credential for the
    cognitive services scope, never an MSAL app; the token it gets is
    stored and returned, and an error of the credential leaves the cache
    as it was. *)
Theorem default_azure_uses_cli env t log log' o :
  stale_entry env t log "azure" log' ->
  cli_get_token env log' DefaultAuthProvider.azure_scope = o ->
  DefaultAuthProvider.get_azure_openai_token env (t, log)
  = (o, (match o with Done tok => dict_set_str t "azure" tok | Raised _ => t end,
         (log' ++ [EvCliToken "https://cognitiveservices.azure.com/.default"])%list)).
Proof.
  intros Hs Hc.
  rewrite (get_azure_stale env t log log' Hs); cbv zeta; rewrite Hc.
  destruct o; reflexivity.
Qed.

(** X5: [DefaultAuthProvider]: a cached token that does not decode, or
    whose payload has no ['exp'], makes every call of its getter raise that
    error, before any login: the bad entry stays in the cache. *)
Theorem default_getter_broken_token name get env t log tok ex :
  In (name, get) default_getters ->
  dict_get_or_none t name = tok -> tok <> PNone ->
  (jwt_decode env tok = Raised ex \/
   exists d c m, jwt_decode env tok = Done d /\ dict_getitem_str d "exp" = Err c m
                 /\ ex = ExcPy c m) ->
  get env (t, log) = (Raised ex, (t, log)).
Proof.
  intros Hin Hg Hn Hb.
  case_getter Hin.
  - apply (get_azure_broken env t log tok ex Hg Hn Hb).
  - unfold_getters; apply (get_interactive_broken env _ _ _ t log tok ex Hg Hn Hb).
  - unfold_getters; apply (get_interactive_broken env _ _ _ t log tok ex Hg Hn Hb).
  - unfold_getters; apply (get_interactive_broken env _ _ _ t log tok ex Hg Hn Hb).
Qed.

(** X6: [DefaultAuthProvider._set_token] then [_get_token]: the entry set
    is read back, every other entry reads as before, and no call is made. *)
Theorem default_set_then_get name v n t log :
  (_ <-- DefaultAuthProvider._set_token name v ;; DefaultAuthProvider._get_token n) (t, log)
  = (Done (if String.eqb n name then v else dict_get_or_none t n),
     (dict_set_str t name v, log)).
Proof.
  cbn [mbind DefaultAuthProvider._set_token DefaultAuthProvider._get_token
       mmodify mget mret fst snd].
  destruct (String.eqb n name) eqn:E.
  - apply String.eqb_eq in E; subst n; rewrite dict_get_set_same; reflexivity.
  - apply String.eqb_neq in E; rewrite (dict_get_set_other t name n v E); reflexivity.
Qed.

Lemma get_interactive_missing env name cid sc t log r tok :
  dict_get_or_none t name = PNone ->
  acquire_token_interactive env log cid sc = Done r ->
  str_key_get r "access_token" = Some tok ->
  (_ <-- DefaultAuthProvider.refresh_interactive env name cid sc ;;
   DefaultAuthProvider._get_token name) (t, log)
  = (Done tok, (dict_set_str t name tok, (log ++ [EvAcquire cid sc])%list)).
Proof.
  intros Hg Ha Hk.
  rewrite (get_interactive_stale env name cid sc t log log
             (or_introl (conj Hg eq_refl))).
  cbv zeta; rewrite Ha, Hk; reflexivity.
Qed.

(** X7: [DefaultAuthProvider.ensure_all_tokens] on an empty cache: one
    Azure CLI call, then the Graph, Substrate and Substrate LLM logins in
    this order, each with its own app and scopes; the four tokens end up
    cached under ["azure"], ["graph"], ["substrate"], ["substrate_llm"]. *)
Theorem default_ensure_all_from_empty env log ta r1 tg r2 ts r3 tl :
  let ev0 := EvCliToken DefaultAuthProvider.azure_scope in
  let ev1 := EvAcquire _mcp_client_id _graph_scope in
  let ev2 := EvAcquire _client_id _scope in
  let ev3 := EvAcquire _sample_client_id _substrate_llm_scopes in
  cli_get_token env log DefaultAuthProvider.azure_scope = Done ta ->
  acquire_token_interactive env (log ++ [ev0]) _mcp_client_id _graph_scope = Done r1 ->
  str_key_get r1 "access_token" = Some tg ->
  acquire_token_interactive env (log ++ [ev0; ev1]) _client_id _scope = Done r2 ->
  str_key_get r2 "access_token" = Some ts ->
  acquire_token_interactive env (log ++ [ev0; ev1; ev2]) _sample_client_id
    _substrate_llm_scopes = Done r3 ->
  str_key_get r3 "access_token" = Some tl ->
  DefaultAuthProvider.ensure_all_tokens env ([], log)
  = (Done tt, ([("azure", ta); ("graph", tg); ("substrate", ts); ("substrate_llm", tl)],
               (log ++ [ev0; ev1; ev2; ev3])%list)).
Proof.
  cbv zeta; intros Hc Ha1 Hk1 Ha2 Hk2 Ha3 Hk3.
  unfold DefaultAuthProvider.ensure_all_tokens, mbind at 1.
  rewrite (get_azure_stale env [] log log (or_introl (conj eq_refl eq_refl))).
  cbv zeta; rewrite Hc; cbv beta iota.
  unfold mbind at 1; unfold_getters.
  rewrite (get_interactive_missing env "graph" _ _ (dict_set_str [] "azure" ta) _ r1 tg eq_refl Ha1 Hk1).
  cbv beta iota; unfold mbind at 1.
  rewrite <- app_assoc; cbn [app].
  rewrite (get_interactive_missing env "substrate" _ _
             (dict_set_str (dict_set_str [] "azure" ta) "graph" tg) _ r2 ts eq_refl Ha2 Hk2).
  cbv beta iota; unfold mbind at 1.
  rewrite <- app_assoc; cbn [app].
  rewrite (get_interactive_missing env "substrate_llm" _ _
             (dict_set_str (dict_set_str (dict_set_str [] "azure" ta) "graph" tg)
                "substrate" ts) _ r3 tl eq_refl Ha3 Hk3).
  cbv beta iota; cbn [mret]; rewrite <- app_assoc; cbn [app]; reflexivity.
Qed.

(** X8: [SimpleAuth.clear_cache] empties the cache: a Graph, Substrate or
    Substrate LLM getter called next logs in again whatever was cached,
    and afterwards the cache holds that one token. *)
Theorem simple_clear_cache_relogin name cid sc get env t log r tok :
  In (name, cid, sc, get) interactive_getters ->
  acquire_token_interactive env log cid sc = Done r ->
  str_key_get r "access_token" = Some tok ->
  (_ <-- SimpleAuth.clear_cache ;; get env) (t, log)
  = (Done tok, ([(name, tok)], (log ++ [EvAcquire cid sc])%list)).
Proof.
  intros Hin Ha Hk.
  case_getter Hin; unfold mbind at 1; cbn [SimpleAuth.clear_cache mmodify fst snd];
    unfold_getters;
    rewrite (get_interactive_missing env _ _ _ [] log r tok eq_refl Ha Hk);
    reflexivity.
Qed.

(** X9: [InputAuth.ensure_all_tokens] always raises the
    [NotImplementedError] of [get_azure_openai_token], before any prompt,
    and changes nothing. *)
Theorem input_ensure_all_raises env s log :
  InputAuth.ensure_all_tokens env (s, log)
  = (Raised (ExcNotImplementedError
               "Azure OpenAI token not found a good way to get it, please try to use SimpleAuth or DefaultAuthProvider"),
     (s, log)).
Proof. reflexivity. Qed.

Lemma prompt_token_stale env field set prompt s log log' x :
  ((py_truthy (field s) = false /\ log' = log) \/
   (exists d e, py_truthy (field s) = true /\ jwt_decode env (field s) = Done d /\
      dict_getitem_str d "exp" = Ok e /\ py_lt e (PFloat (clock env log)) = Ok true /\
      log' = (log ++ [EvTime; EvTime])%list)) ->
  input env log' prompt = Done x ->
  InputAuth.prompt_token env field set prompt (s, log)
  = (Done (PStr x), (set (PStr x) s, (log' ++ [EvInput prompt])%list)).
Proof.
  intros [[Ht ->]|(d & e & Ht & Hj & He & Hl & ->)] Hx;
    unfold InputAuth.prompt_token; cbn [mbind mget fst snd]; rewrite Ht.
  - cbn [mbind mret call mmodify fst snd]; rewrite Hx; reflexivity.
  - assert (Hn : field s <> PNone) by (intros E; rewrite E in Ht; discriminate).
    unfold InputAuth._valid, mbind at 1.
    rewrite (token_is_fresh_run env (field s) d e true s log Hn Hj He Hl).
    cbn [negb mbind mret call mmodify fst snd]; rewrite Hx; reflexivity.
Qed.

Lemma prompt_token_fresh env field set prompt s log d e :
  py_truthy (field s) = true -> jwt_decode env (field s) = Done d ->
  dict_getitem_str d "exp" = Ok e -> py_lt e (PFloat (clock env log)) = Ok false ->
  InputAuth.prompt_token env field set prompt (s, log)
  = (Done (field s), (s, (log ++ [EvTime])%list)).
Proof.
  intros Ht Hj He Hl.
  assert (Hn : field s <> PNone) by (intros E; rewrite E in Ht; discriminate).
  unfold InputAuth.prompt_token; cbn [mbind mget fst snd]; rewrite Ht.
  unfold InputAuth._valid, mbind at 1.
  rewrite (token_is_fresh_run env (field s) d e false s log Hn Hj He Hl).
  reflexivity.
Qed.

(** X10: [InputAuth]'s Substrate, Substrate LLM and Graph getters: when
    the attribute is falsy ([None] or [''], never validated then) or holds
    an expired token, the user is prompted once and whatever is typed,
    even [''], is stored in that attribute alone and returned. *)
Theorem input_getter_prompts field set prompt get env s log log' x :
  In (field, set, prompt, get) input_getters ->
  ((py_truthy (field s) = false /\ log' = log) \/
   (exists d e, py_truthy (field s) = true /\ jwt_decode env (field s) = Done d /\
      dict_getitem_str d "exp" = Ok e /\ py_lt e (PFloat (clock env log)) = Ok true /\
      log' = (log ++ [EvTime; EvTime])%list)) ->
  input env log' prompt = Done x ->
  get env (s, log) = (Done (PStr x), (set (PStr x) s, (log' ++ [EvInput prompt])%list)).
Proof.
  intros Hin Hs Hx.
  case_getter Hin; apply prompt_token_stale; assumption.
Qed.

(** X11: [InputAuth]'s Substrate, Substrate LLM and Graph getters return a
    truthy attribute whose token is not expired as it is, without a
    prompt and without a change. *)
Theorem input_getter_cached field set prompt get env s log d e :
  In (field, set, prompt, get) input_getters ->
  py_truthy (field s) = true -> jwt_decode env (field s) = Done d ->
  dict_getitem_str d "exp" = Ok e -> py_lt e (PFloat (clock env log)) = Ok false ->
  get env (s, log) = (Done (field s), (s, (log ++ [EvTime])%list)).
Proof.
  intros Hin Ht Hj He Hl.
  case_getter Hin; apply (prompt_token_fresh env _ _ _ s log d e); assumption.
Qed.

Lemma str_app_assoc (a b c : string) : ((a ++ b) ++ c = a ++ b ++ c)%string.
Proof. induction a as [|ch a IH]; cbn; [reflexivity|rewrite IH; reflexivity]. Qed.

(** X12: [get_shard_id(token)] is ["OID:" + oid + "@" + tid] for the str
    claims ['oid'] and ['tid'] of the decoded token, the values
    [get_user_id] and [get_tenant_id] return. *)
Theorem shard_id_of_claims env tok d oid tid :
  jwt_decode env tok = Done d ->
  dict_getitem_str d "oid" = Ok (PStr oid) -> dict_getitem_str d "tid" = Ok (PStr tid) ->
  get_shard_id env tok = Done ("OID:" ++ oid ++ "@" ++ tid) /\
  get_user_id env tok = Done (PStr oid) /\ get_tenant_id env tok = Done (PStr tid).
Proof.
  intros Hj Ho Ht.
  unfold get_shard_id, get_user_id, get_tenant_id; rewrite Hj, Ho, Ht.
  cbn; rewrite !str_app_assoc; repeat split.
Qed.

(** X13: [get_shard_id(token)] reads ['oid'] first: without it, it raises
    [KeyError('oid')], as [get_user_id] does, whether or not ['tid'] is
    there. *)
Theorem shard_id_oid_first env tok d :
  jwt_decode env tok = Done d -> str_key_get d "oid" = None ->
  get_shard_id env tok = Raised (ExcPy KeyError "'oid'") /\
  get_user_id env tok = Raised (ExcPy KeyError "'oid'").
Proof.
  intros Hj Ho; unfold get_shard_id, get_user_id, dict_getitem_str; rewrite Hj, Ho.
  split; reflexivity.
Qed.

(** ** The prompt and the request [explain] sends *)

Lemma bind_Ok_inv {A B} (m : result A) (k : A -> result B) b :
  bind m k = Ok b -> exists a, m = Ok a /\ k a = Ok b.
Proof. destruct m as [a|c s]; cbn; [eauto|discriminate]. Qed.

Lemma explain_lines_shape H gi ki ai is_3p top_k lines :
  explain_lines H gi ki ai is_3p top_k = Ok lines ->
  exists mid, lines = (["你是一个专业的日本麻将高手，擅长分析和解读麻将游戏中的策略和技巧。";
                        "请基于下列牌局快照和AI推荐，简明扼要地解释AI给出概率的原因。"; ""]
                       ++ mid ++ [""; INSTRUCTIONS])%list.
Proof.
  intros E; unfold explain_lines in E; cbv zeta in E.
  repeat (apply bind_Ok_inv in E; destruct E as [? [_ E]]; cbv beta in E;
          try match goal with p : prod _ _ |- _ => destruct p end).
  injection E as <-.
  match goal with
  | |- exists mid, (?a :: ?b :: ?c :: ?h :: ?s :: ?e :: ?f :: ?L1
                     ++ ?x :: ?y :: ?z :: ?u :: ?v :: ?L2 ++ [""; INSTRUCTIONS])%list = _ =>
      exists (h :: s :: e :: f :: L1 ++ x :: y :: z :: u :: v :: L2)%list
  end.
  cbn [app]; rewrite <- !app_assoc; reflexivity.
Qed.

(** X14: every prompt [explain] composes starts with the two fixed lines
    on the assistant's role and task and a blank line, and ends with a
    blank line and the fixed instructions. *)
Theorem explain_prompt_frame H gi ki ai is_3p top_k p :
  explain_prompt H gi ki ai is_3p top_k = Ok p ->
  exists mid, p = String.concat newline
                    (["你是一个专业的日本麻将高手，擅长分析和解读麻将游戏中的策略和技巧。";
                      "请基于下列牌局快照和AI推荐，简明扼要地解释AI给出概率的原因。"; ""]
                     ++ mid ++ [""; INSTRUCTIONS])%list.
Proof.
  unfold explain_prompt; intros E.
  apply bind_Ok_inv in E as [lines [El E]]; injection E as <-.
  destruct (explain_lines_shape H gi ki ai is_3p top_k lines El) as [mid ->].
  exists mid; reflexivity.
Qed.

(** X15: [explain] sends the chat model exactly two messages, a system
    message with empty content and a user message with the whole prompt
    (never dropped: the prompt is never empty), and returns the answer. *)
Theorem explain_sends_prompt invoke H gi ki ai is_3p top_k p :
  explain_prompt H gi ki ai is_3p top_k = Ok p ->
  explain invoke H gi ki ai is_3p top_k
  = invoke [PDict [(PStr "role", PStr "system"); (PStr "content", PStr "")];
            PDict [(PStr "role", PStr "user"); (PStr "content", PStr p)]].
Proof.
  intros E; unfold explain; rewrite E.
  unfold explain_prompt in E.
  apply bind_Ok_inv in E as [lines [El E]]; injection E as <-.
  destruct (explain_lines_shape H gi ki ai is_3p top_k lines El) as [mid ->].
  reflexivity.
Qed.

(** ** The rendering helpers of [reasoning.py] *)

Lemma table_get_action s : table_get ACTION_NL (PStr s) = Ok (action_name s).
Proof. reflexivity. Qed.

Lemma find_ascii_keys (tbl : list (string * string)) s :
  forallb (fun kv => ascii_led (fst kv)) tbl = true -> lead_byte_high s = true ->
  find (fun kv => String.eqb (fst kv) s) tbl = None.
Proof.
  induction tbl as [|[k v] r IH]; cbn; [reflexivity|]; intros H Hs.
  apply andb_prop in H as [Hk Hr].
  destruct (String.eqb k s) eqn:E.
  - apply String.eqb_eq in E; subst k.
    destruct s as [|c s']; cbn [ascii_led lead_byte_high fst] in Hk, Hs; [discriminate|].
    apply Nat.ltb_lt in Hk; apply Nat.leb_le in Hs; lia.
  - apply IH; assumption.
Qed.

Lemma action_to_nl_high s :
  lead_byte_high s = true -> action_to_nl (PStr s) = Ok (PStr s).
Proof.
  intros Hs.
  assert (Ha : action_name s = None).
  { unfold action_name; rewrite (find_ascii_keys ACTION_NL s eq_refl Hs); reflexivity. }
  assert (Ht : tile_nl s = s).
  { unfold tile_nl; rewrite (find_ascii_keys MJAI_TILE_2_NL s eq_refl Hs); reflexivity. }
  unfold action_to_nl; rewrite table_get_action, Ha; cbn [bind].
  rewrite mjai_to_natural_str, Ht; reflexivity.
Qed.

(** X16: [action_to_nl] gives back, unchanged, a str that is already a
    rendered name: a name of [ACTION_NL] or [MJAI_TILE_2_NL], a discard
    ['打' + ...], or any str starting with a non-ASCII character, since
    every key of the two tables is ASCII. *)
Theorem action_to_nl_rendered s :
  In s (map snd ACTION_NL ++ map snd MJAI_TILE_2_NL) \/ (exists t, s = "打" ++ t)
  \/ lead_byte_high s = true ->
  action_to_nl (PStr s) = Ok (PStr s).
Proof.
  intros H; apply action_to_nl_high.
  destruct H as [Hin|[[t ->]|Hs]]; [|reflexivity|exact Hs].
  assert (Hall : forallb lead_byte_high (map snd ACTION_NL ++ map snd MJAI_TILE_2_NL)
                 = true) by reflexivity.
  rewrite forallb_forall in Hall; apply Hall, Hin.
Qed.

(** X17: a str that is not an [ACTION_NL] tag renders as its tile name
    (itself when it is no tile code either), and so does a 2-item list or
    tuple [(tile, score)] whose score is an int, bool or float. *)
Theorem action_to_nl_tile_forms s x :
  action_name s = None -> is_int_or_float x = true ->
  action_to_nl (PStr s) = Ok (PStr (tile_nl s)) /\
  action_to_nl (PList [PStr s; x]) = Ok (PStr (tile_nl s)) /\
  action_to_nl (PTuple [PStr s; x]) = Ok (PStr (tile_nl s)).
Proof.
  intros Ha Hx; unfold action_to_nl; rewrite !table_get_action, Ha; cbn [bind].
  rewrite Hx, mjai_to_natural_str; repeat split.
Qed.

(** X18: a non-discard action tag with a non-empty tile renders in the
    long form [name + ' ' + tile name], as a list or tuple [(tag, tile,
    ...)], as a dict [{'type', 'pai'}] and as a dict [{'action', 'tile'}];
    with a [None] tile the list form is the name alone. *)
Theorem action_to_nl_long_form typ desc t rest :
  action_name typ = Some desc -> typ <> "dahai" -> t <> "" ->
  action_to_nl (PList (PStr typ :: PStr t :: rest)) = Ok (PStr (desc ++ " " ++ tile_nl t)) /\
  action_to_nl (PTuple (PStr typ :: PStr t :: rest)) = Ok (PStr (desc ++ " " ++ tile_nl t)) /\
  action_to_nl (PDict [(PStr "type", PStr typ); (PStr "pai", PStr t)])
    = Ok (PStr (desc ++ " " ++ tile_nl t)) /\
  action_to_nl (PDict [(PStr "action", PStr typ); (PStr "tile", PStr t)])
    = Ok (PStr (desc ++ " " ++ tile_nl t)) /\
  action_to_nl (PList [PStr typ; PNone]) = Ok (PStr desc).
Proof.
  intros Ha Hd Ht.
  assert (Hd' : String.eqb typ "dahai" = false) by (apply String.eqb_neq; exact Hd).
  assert (Hty : py_truthy (PStr typ) = true).
  { apply py_truthy_str; intros ->; discriminate Ha. }
  pose proof (py_truthy_str t Ht) as Htt.
  assert (Hor : forall a b, py_truthy a = true -> py_or a b = a)
    by (intros a b Hab; unfold py_or; rewrite Hab; reflexivity).
  repeat split; unfold action_to_nl.
  - rewrite table_get_action, Ha; cbn [bind]; rewrite Hd', Htt, mjai_to_natural_str.
    reflexivity.
  - rewrite table_get_action, Ha; cbn [bind]; rewrite Hd', Htt, mjai_to_natural_str.
    reflexivity.
  - replace (dict_get_str [(PStr "type", PStr typ); (PStr "pai", PStr t)] "type")
      with (PStr typ) by reflexivity.
    replace (dict_get_str [(PStr "type", PStr typ); (PStr "pai", PStr t)] "pai")
      with (PStr t) by reflexivity.
    rewrite !(Hor (PStr typ)), !(Hor (PStr t)), Hty, table_get_action, Ha by assumption.
    cbn [bind py_eq as_num]; rewrite Hd', Htt, mjai_to_natural_str; reflexivity.
  - replace (dict_get_str [(PStr "action", PStr typ); (PStr "tile", PStr t)] "type")
      with PNone by reflexivity.
    replace (dict_get_str [(PStr "action", PStr typ); (PStr "tile", PStr t)] "pai")
      with PNone by reflexivity.
    replace (dict_get_str [(PStr "action", PStr typ); (PStr "tile", PStr t)] "action")
      with (PStr typ) by reflexivity.
    replace (dict_get_str [(PStr "action", PStr typ); (PStr "tile", PStr t)] "tile")
      with (PStr t) by reflexivity.
    change (py_or PNone (PStr typ)) with (PStr typ).
    change (py_or PNone (PStr t)) with (PStr t).
    rewrite Hty, table_get_action, Ha.
    cbn [bind py_eq as_num]; rewrite Hd', Htt, mjai_to_natural_str; reflexivity.
  - rewrite table_get_action, Ha; cbn [bind]; rewrite Hd'; reflexivity.
Qed.

Lemma py_join_strs sep l : py_join sep (map PStr l) = Ok (String.concat sep l).
Proof.
  unfold py_join.
  match goal with |- bind (?F 0 _) _ = _ =>
    assert (HF : forall i, F i (map PStr l) = Ok l) end.
  { induction l as [|s r IH]; intros i; [reflexivity|].
    cbn [map]; cbn; rewrite IH; reflexivity. }
  rewrite HF; reflexivity.
Qed.

Lemma mapM_mjai_strs l :
  mapM mjai_to_natural (map PStr l) = Ok (map PStr (map tile_nl l)).
Proof.
  induction l as [|s r IH]; [reflexivity|].
  cbn [map mapM]; rewrite mjai_to_natural_str, IH; reflexivity.
Qed.

(** X19: [tile_list_to_nl_single] on a non-empty list of strs joins their
    tile names with ['、']; each str that is no tile code stands for
    itself. *)
Theorem tile_list_single_strs l :
  l <> [] -> tile_list_to_nl_single (PList (map PStr l)) = String.concat "、" (map tile_nl l).
Proof.
  intros Hl; destruct l as [|s r]; [contradiction|].
  unfold tile_list_to_nl_single; cbn [py_truthy negb py_iter bind].
  rewrite mapM_mjai_strs; cbn [bind]; rewrite py_join_strs; reflexivity.
Qed.

Lemma skipn_nth_cons {A} (l : list A) k d :
  (k < List.length l)%nat -> skipn k l = nth k l d :: skipn (S k) l.
Proof.
  revert k; induction l as [|x r IH]; intros k Hk; cbn in Hk; [lia|].
  destruct k as [|k]; [reflexivity|].
  cbn [skipn nth]; apply IH; lia.
Qed.

Lemma getitem_list_ok (L : list pyval) k :
  (k < List.length L)%nat -> py_getitem (PList L) (Z.of_nat k) = Ok (nth k L PNone).
Proof.
  intros Hk; cbn [py_getitem]; unfold seq_index; cbv zeta.
  assert (E1 : (Z.of_nat k <? 0) = false) by (apply Z.ltb_ge; lia).
  assert (E2 : (Z.of_nat (List.length L) <=? Z.of_nat k) = false) by (apply Z.leb_gt; lia).
  rewrite E1; cbv iota; rewrite E1, E2.
  cbn [orb]; rewrite Nat2Z.id.
  rewrite (nth_error_nth' L PNone Hk); reflexivity.
Qed.

Lemma disc_parts_ok flags tiles k :
  (k + List.length tiles <= List.length flags)%nat ->
  mapiM_from (Z.of_nat k)
    (disc_parts (map (fun b => PStr (discard_label b)) flags)) (map PStr tiles)
  = Ok (map (fun p => PStr (discard_label (fst p) ++ tile_nl (snd p)))
            (combine (skipn k flags) tiles)).
Proof.
  revert k; induction tiles as [|t r IH]; intros k Hk.
  - destruct (skipn k flags); reflexivity.
  - cbn [map mapiM_from]; unfold disc_parts at 1.
    cbn [List.length] in Hk.
    rewrite getitem_list_ok by (rewrite length_map; lia).
    rewrite (skipn_nth_cons flags k PNone) by lia.
    cbn [bind]; rewrite mjai_to_natural_str; cbn [bind].
    replace (Z.of_nat k + 1) with (Z.of_nat (S k)) by lia.
    rewrite IH by lia.
    rewrite (nth_indep _ (PNone) (PStr (discard_label PNone)))
      by (rewrite length_map; lia).
    assert (En : nth k (map (fun b => PStr (discard_label b)) flags)
                   (PStr (discard_label PNone))
                 = PStr (discard_label (nth k flags PNone)))
      by exact (map_nth (fun b => PStr (discard_label b)) flags PNone k).
    rewrite En; reflexivity.
Qed.

Lemma disc_parts_err (L : list pyval) tiles k :
  tiles <> [] -> (List.length L < k + List.length tiles)%nat ->
  exists c m, mapiM_from (Z.of_nat k) (disc_parts L) (map PStr tiles) = Err c m.
Proof.
  revert k; induction tiles as [|t r IH]; intros k Hne Hk; [contradiction|].
  cbn [List.length] in Hk.
  cbn [map mapiM_from]; unfold disc_parts at 1.
  destruct (Nat.lt_ge_cases k (List.length L)) as [Hlt|Hge].
  - rewrite getitem_list_ok by exact Hlt; cbn [bind]; rewrite mjai_to_natural_str.
    cbn [bind]; replace (Z.of_nat k + 1) with (Z.of_nat (S k)) by lia.
    destruct r as [|t' r']; [cbn [List.length] in Hk; lia|].
    destruct (IH (S k)) as (c & m & E); [discriminate|cbn [List.length] in *; lia|].
    rewrite E; cbn [bind]; eauto.
  - cbn [py_getitem]; unfold seq_index; cbv zeta.
    assert (E1 : (Z.of_nat k <? 0) = false) by (apply Z.ltb_ge; lia).
    assert (E2 : (Z.of_nat (List.length L) <=? Z.of_nat k) = true) by (apply Z.leb_le; lia).
    rewrite E1; cbv iota; rewrite E2.
    rewrite orb_true_r; cbn [bind]; eauto.
Qed.

(** X20: a discard pile with its discard flags, as [explain] renders it:
    with at least as many flags as tiles, each tile name is prefixed by
    ['摸切'] (truthy flag) or ['手切'], in order, joined by ['、']; with
    fewer flags (none included) the pile is printed as the raw Python
    list. *)
Theorem discard_pile_line tiles flags :
  tiles <> [] ->
  tile_list_to_nl (PList (map PStr tiles)) (disc_type_to_nl (PList flags))
  = if (List.length tiles <=? List.length flags)%nat
    then String.concat "、" (map (fun p => discard_label (fst p) ++ tile_nl (snd p))
                                 (combine flags tiles))
    else py_str (PList (map PStr tiles)).
Proof.
  intros Ht; destruct tiles as [|t0 r0]; [contradiction|].
  set (tiles := t0 :: r0).
  destruct flags as [|f0 fr].
  - cbn [disc_type_to_nl py_truthy negb].
    replace (List.length tiles <=? List.length (@nil pyval))%nat with false by reflexivity.
    reflexivity.
  - set (flags := f0 :: fr).
    assert (Hd : disc_type_to_nl (PList flags)
                 = PList (map (fun b => PStr (discard_label b)) flags)) by reflexivity.
    rewrite Hd; unfold tile_list_to_nl.
    replace (py_truthy (PList (map PStr tiles))) with true by reflexivity.
    cbn [negb py_iter bind]; unfold mapiM.
    change (fun i t => ty <- py_getitem (PList (map (fun b => PStr (discard_label b)) flags)) i ;;
                       nt <- mjai_to_natural t ;; Ok (PStr (py_str ty ++ py_str nt)))
      with (disc_parts (map (fun b => PStr (discard_label b)) flags)).
    destruct (Nat.leb_spec (List.length tiles) (List.length flags)) as [Hle|Hgt].
    + change 0 with (Z.of_nat 0).
      rewrite (disc_parts_ok flags tiles 0) by lia; cbn [bind skipn].
      replace (map (fun p => PStr (discard_label (fst p) ++ tile_nl (snd p)))
                   (combine flags tiles))
        with (map PStr (map (fun p => discard_label (fst p) ++ tile_nl (snd p))
                            (combine flags tiles)))
        by (rewrite map_map; reflexivity).
      rewrite py_join_strs; reflexivity.
    + destruct (disc_parts_err (map (fun b => PStr (discard_label b)) flags) tiles 0)
        as (c & m & E); [discriminate|rewrite length_map; lia|].
      change 0 with (Z.of_nat 0); rewrite E; reflexivity.
Qed.

Lemma melds_to_nl_loop melds melds_types :
  melds_to_nl melds melds_types
  = if negb (py_truthy melds) then Ok "无" else
    ms <- py_iter melds ;;
    out <- mapiM (meld_part melds_types) ms ;;
    Ok (String.concat "，" out).
Proof. reflexivity. Qed.

Lemma meld_part_ok types ms k :
  (k + List.length ms <= List.length types)%nat ->
  mapiM_from (Z.of_nat k) (meld_part (PList types))
    (map (fun m => PList (map PStr m)) ms)
  = Ok (map meld_label (combine (skipn k types) ms)).
Proof.
  revert k; induction ms as [|m r IH]; intros k Hk.
  - destruct (skipn k types); reflexivity.
  - cbn [map mapiM_from]; unfold meld_part at 1.
    cbn [List.length] in Hk.
    rewrite getitem_list_ok by lia; cbn [bind].
    rewrite mapM_mjai_strs; cbn [bind].
    replace (Z.of_nat k + 1) with (Z.of_nat (S k)) by lia.
    rewrite IH by lia; cbn [bind].
    rewrite (skipn_nth_cons types k PNone) by lia.
    cbn [combine map]; unfold meld_label at 1; cbn [fst snd].
    rewrite !map_map; reflexivity.
Qed.

Lemma meld_part_err types ms k :
  ms <> [] -> (List.length types < k + List.length ms)%nat ->
  mapiM_from (Z.of_nat k) (meld_part (PList types))
    (map (fun m => PList (map PStr m)) ms)
  = Err IndexError "list index out of range".
Proof.
  revert k; induction ms as [|m r IH]; intros k Hne Hk; [contradiction|].
  cbn [List.length] in Hk.
  cbn [map mapiM_from]; unfold meld_part at 1.
  destruct (Nat.lt_ge_cases k (List.length types)) as [Hlt|Hge].
  - rewrite getitem_list_ok by exact Hlt; cbn [bind].
    rewrite mapM_mjai_strs; cbn [bind].
    replace (Z.of_nat k + 1) with (Z.of_nat (S k)) by lia.
    destruct r as [|m' r']; [cbn [List.length] in Hk; lia|].
    rewrite IH; [reflexivity|discriminate|cbn [List.length] in *; lia].
  - cbn [py_getitem]; unfold seq_index; cbv zeta.
    assert (E1 : (Z.of_nat k <? 0) = false) by (apply Z.ltb_ge; lia).
    assert (E2 : (Z.of_nat (List.length types) <=? Z.of_nat k) = true)
      by (apply Z.leb_le; lia).
    rewrite E1; cbv iota; rewrite E2.
    rewrite orb_true_r; reflexivity.
Qed.

(** X21: [melds_to_nl] on a non-empty list of melds given as lists of tile
    codes: with at least as many [melds_types] as melds, each meld is shown
    as ["[type: names]"] with its tile names joined by ['、'], the melds
    joined by ['，']; with fewer types it raises the [IndexError] of
    [melds_types[j]], which it does not catch. *)
Theorem melds_lists_line ms types :
  ms <> [] ->
  melds_to_nl (PList (map (fun m => PList (map PStr m)) ms)) (PList types)
  = if (List.length ms <=? List.length types)%nat
    then Ok (String.concat "，" (map meld_label (combine types ms)))
    else Err IndexError "list index out of range".
Proof.
  intros Hne; destruct ms as [|m0 r0]; [contradiction|].
  set (ms := m0 :: r0).
  rewrite melds_to_nl_loop.
  replace (negb (py_truthy (PList (map (fun m => PList (map PStr m)) ms))))
    with false by reflexivity.
  cbn [py_iter bind]; unfold mapiM; change 0 with (Z.of_nat 0).
  destruct (Nat.leb_spec (List.length ms) (List.length types)) as [Hle|Hgt].
  - rewrite meld_part_ok by lia; reflexivity.
  - rewrite meld_part_err by (try discriminate; lia); reflexivity.
Qed.

Lemma meld_part_strs types l k :
  mapiM_from k (meld_part types) (map PStr l) = Ok l.
Proof.
  revert k; induction l as [|s r IH]; intros k; [reflexivity|].
  cbn [map mapiM_from]; rewrite IH; reflexivity.
Qed.

(** X22: [melds_to_nl] on a non-empty list of strs joins them unchanged
    with ['，'], whatever [melds_types] is. *)
Theorem melds_strs_line l types :
  l <> [] -> melds_to_nl (PList (map PStr l)) types = Ok (String.concat "，" l).
Proof.
  intros Hne; destruct l as [|s r]; [contradiction|].
  rewrite melds_to_nl_loop.
  replace (negb (py_truthy (PList (map PStr (s :: r))))) with false by reflexivity.
  cbn [py_iter bind]; unfold mapiM; rewrite meld_part_strs; reflexivity.
Qed.

Lemma melds_info_to_nl_loop m :
  melds_info_to_nl m
  = if negb (py_truthy m) then PStr "" else
    try_except (items <- py_iter m ;; parts <- mapM meld_info_part items ;;
                Ok (PList parts))
               (fun _ _ => m).
Proof. reflexivity. Qed.

Lemma py_eq_int d k : py_eq (PInt d) (PInt k) = (d =? k).
Proof. rewrite Z.eqb_compare; reflexivity. Qed.

Lemma adv_lookup d :
  dict_lookup ACTION_NL_ADV (PInt d)
  = Ok (if (-3 <=? d) && (d <=? 3) then Some (PStr (relative_seat d)) else None).
Proof.
  unfold dict_lookup; cbn [py_hashable]; f_equal.
  cbn [assoc_find ACTION_NL_ADV]; rewrite !py_eq_int.
  destruct (Z.eqb_spec d (-3)) as [->|H1]; [reflexivity|].
  destruct (Z.eqb_spec d (-2)) as [->|H2]; [reflexivity|].
  destruct (Z.eqb_spec d (-1)) as [->|H3]; [reflexivity|].
  destruct (Z.eqb_spec d 0) as [->|H4]; [reflexivity|].
  destruct (Z.eqb_spec d 1) as [->|H5]; [reflexivity|].
  destruct (Z.eqb_spec d 2) as [->|H6]; [reflexivity|].
  destruct (Z.eqb_spec d 3) as [->|H7]; [reflexivity|].
  destruct (Z.leb_spec (-3) d), (Z.leb_spec d 3); cbn [andb]; try reflexivity; lia.
Qed.

Lemma meld_info_part_int it :
  meld_info_part (meld_info_item it) = Ok (meld_info_text it).
Proof.
  destruct it as [[typ a] t]; unfold meld_info_part, meld_info_item, meld_info_text.
  cbn [nth]; rewrite table_get_action; cbn [bind].
  destruct (Z.eqb_spec t 0) as [->|Ht]; [reflexivity|].
  replace (py_truthy (PInt t)) with true
    by (cbn [py_truthy]; rewrite (proj2 (Z.eqb_neq t 0) Ht); reflexivity).
  replace (py_sub (PInt t) (PInt a)) with (Ok (PInt (t - a))) by reflexivity.
  cbn [bind]; rewrite adv_lookup; cbn [bind].
  destruct ((-3 <=? t - a) && (t - a <=? 3)); reflexivity.
Qed.

Lemma mapM_meld_info items :
  mapM meld_info_part (map meld_info_item items) = Ok (map meld_info_text items).
Proof.
  induction items as [|it r IH]; [reflexivity|].
  cbn [map mapM]; rewrite meld_info_part_int, IH; reflexivity.
Qed.

(** X23: [melds_info_to_nl] on a non-empty list of [(type, actor, target)]
    triples of a str and two ints gives a list: for target 0 the name of
    the type (None if [ACTION_NL] has none), else that name followed by
    ["（来自seat）"], where seat is the relative seat of [target - actor]
    for an offset in [-3, 3] and None beyond. *)
Theorem melds_info_triples items :
  items <> [] ->
  melds_info_to_nl (PList (map meld_info_item items))
  = PList (map meld_info_text items).
Proof.
  intros Hne; destruct items as [|i0 r0]; [contradiction|].
  rewrite melds_info_to_nl_loop.
  replace (negb (py_truthy (PList (map meld_info_item (i0 :: r0))))) with false
    by reflexivity.
  cbn [py_iter bind]; rewrite mapM_meld_info; reflexivity.
Qed.

(** X24: when a call record of [melds_info_to_nl] has a non-zero target
    but an actor that is no number (None, say), [target - actor] raises
    and [melds_info_to_nl] returns its argument unchanged, a list of
    records instead of a list of names. *)
Theorem melds_info_bad_actor typ actor t rest :
  as_num actor = None -> t <> 0 ->
  melds_info_to_nl (PList (PList [PStr typ; actor; PInt t] :: rest))
  = PList (PList [PStr typ; actor; PInt t] :: rest).
Proof.
  intros Ha Ht; rewrite melds_info_to_nl_loop.
  replace (negb (py_truthy (PList (PList [PStr typ; actor; PInt t] :: rest))))
    with false by reflexivity.
  cbn [py_iter mapM bind]; unfold meld_info_part at 1.
  cbn [nth]; rewrite table_get_action; cbn [bind].
  replace (py_truthy (PInt t)) with true
    by (cbn [py_truthy]; rewrite (proj2 (Z.eqb_neq t 0) Ht); reflexivity).
  unfold py_sub, binop; rewrite Ha; cbn [as_num bind try_except]; reflexivity.
Qed.

Lemma int_float_cmp_lt_mono z z' f :
  z' <= z -> int_float_cmp z f = Some Lt -> int_float_cmp z' f = Some Lt.
Proof.
  intros Hz; destruct f as [s|s| |s m e]; cbn [int_float_cmp]; intros H;
    try discriminate; try exact H.
  - injection H as H; rewrite Z.compare_lt_iff in H; f_equal; apply Z.compare_lt_iff; lia.
  - set (v := if s then Z.neg m else Z.pos m) in *.
    destruct (Z.leb_spec 0 e); injection H as H; rewrite Z.compare_lt_iff in H;
      f_equal; apply Z.compare_lt_iff.
    + set (w := v * 2 ^ e) in *; lia.
    + assert (0 < 2 ^ (- e)) by (apply Z.pow_pos_nonneg; lia); nia.
Qed.

Lemma int_float_cmp_gt_mono z z' f :
  z <= z' -> int_float_cmp z f = Some Gt -> int_float_cmp z' f = Some Gt.
Proof.
  intros Hz; destruct f as [s|s| |s m e]; cbn [int_float_cmp]; intros H;
    try discriminate; try exact H.
  - injection H as H; rewrite Z.compare_gt_iff in H; f_equal; apply Z.compare_gt_iff; lia.
  - set (v := if s then Z.neg m else Z.pos m) in *.
    destruct (Z.leb_spec 0 e); injection H as H; rewrite Z.compare_gt_iff in H;
      f_equal; apply Z.compare_gt_iff.
    + set (w := v * 2 ^ e) in *; lia.
    + assert (0 < 2 ^ (- e)) by (apply Z.pow_pos_nonneg; lia); nia.
Qed.

(** X25: [_fmt_prob] shows a float above 100, below 0 or NaN as its
    [repr] in parentheses, with no percent sign. *)
Theorem fmt_prob_out_of_range f :
  num_cmp (NF f) (NI 100) = Some Gt \/ num_cmp (NF f) (NI 0) = Some Lt
  \/ num_cmp (NF f) (NI 0) = None ->
  fmt_prob (PFloat f) = " (" ++ PyFloat.repr f ++ ")".
Proof.
  cbn [fmt_prob py_float num_cmp]; intros [H|[H|H]].
  - assert (H1 : int_float_cmp 100 f = Some Lt)
      by (destruct (int_float_cmp 100 f) as [[]|]; cbn in H; congruence).
    rewrite (int_float_cmp_lt_mono 100 1 f), (int_float_cmp_lt_mono 100 0 f), H1
      by (lia || exact H1).
    reflexivity.
  - assert (H0 : int_float_cmp 0 f = Some Gt)
      by (destruct (int_float_cmp 0 f) as [[]|]; cbn in H; congruence).
    rewrite (int_float_cmp_gt_mono 0 1 f), H0 by (lia || exact H0).
    reflexivity.
  - destruct f as [s|s| |s m e]; cbn [int_float_cmp option_map] in H;
      try discriminate; [reflexivity|].
    destruct (0 <=? e); discriminate.
Qed.

Lemma default_getter_cache_hit_witness :
  DefaultAuthProvider.get_graph_token (sample_env "") ([("graph", PStr "fresh")], [])
  = (Done (PStr "fresh"), ([("graph", PStr "fresh")], [EvTime])).
Proof.
  apply (default_getter_cache_hit "graph" DefaultAuthProvider.get_graph_token).
  - cbn; auto.
  - unfold fresh_entry; split; [reflexivity|]; split; [discriminate|].
    do 2 eexists; split; [reflexivity|]; split; reflexivity.
Defined.

Lemma default_getter_login_witness :
  DefaultAuthProvider.get_graph_token (sample_env "") ([("graph", PStr "stale")], [])
  = (Done (PStr ("tok-" ++ _mcp_client_id)),
     ([("graph", PStr ("tok-" ++ _mcp_client_id))], [EvTime; EvTime; EvAcquire _mcp_client_id _graph_scope])).
Proof.
  apply (default_getter_login "graph" _mcp_client_id _graph_scope
           DefaultAuthProvider.get_graph_token (sample_env "") [("graph", PStr "stale")] []
           [EvTime; EvTime] [(PStr "access_token", PStr ("tok-" ++ _mcp_client_id))]).
  - cbn; auto.
  - right; do 3 eexists; split; [reflexivity|]; split; [discriminate|].
    split; [reflexivity|]; split; [reflexivity|]; split; reflexivity.
  - reflexivity.
  - reflexivity.
Defined.

Lemma default_getter_login_fails_witness :
  DefaultAuthProvider.get_graph_token (sample_env _mcp_client_id) ([], [])
  = (Raised (ExcException "Failed to acquire token"),
     ([], [EvAcquire _mcp_client_id _graph_scope])).
Proof.
  apply (default_getter_login_fails "graph" _mcp_client_id _graph_scope
           DefaultAuthProvider.get_graph_token (sample_env _mcp_client_id) [] [] []).
  - cbn; auto.
  - left; split; reflexivity.
  - right; eexists; split; [reflexivity|]; split; reflexivity.
Defined.

Lemma default_azure_uses_cli_witness :
  DefaultAuthProvider.get_azure_openai_token (sample_env "") ([], [])
  = (Done (PStr "cli-token"), ([("azure", PStr "cli-token")],
       [EvCliToken "https://cognitiveservices.azure.com/.default"])).
Proof.
  apply (default_azure_uses_cli (sample_env "") [] [] [] (Done (PStr "cli-token"))).
  - left; split; reflexivity.
  - reflexivity.
Defined.

Lemma default_getter_broken_token_witness :
  DefaultAuthProvider.get_substrate_token (sample_env "") ([("substrate", PStr "junk")], [])
  = (Raised (ExcExternal "Not enough segments"), ([("substrate", PStr "junk")], [])).
Proof.
  apply (default_getter_broken_token "substrate" DefaultAuthProvider.get_substrate_token
           (sample_env "") [("substrate", PStr "junk")] [] (PStr "junk")).
  - cbn; auto.
  - reflexivity.
  - discriminate.
  - left; reflexivity.
Defined.

Lemma default_ensure_all_from_empty_witness :
  DefaultAuthProvider.ensure_all_tokens (sample_env "") ([], [])
  = (Done tt, ([("azure", PStr "cli-token"); ("graph", PStr ("tok-" ++ _mcp_client_id));
                ("substrate", PStr ("tok-" ++ _client_id));
                ("substrate_llm", PStr ("tok-" ++ _sample_client_id))],
               [EvCliToken DefaultAuthProvider.azure_scope;
                EvAcquire _mcp_client_id _graph_scope; EvAcquire _client_id _scope;
                EvAcquire _sample_client_id _substrate_llm_scopes])).
Proof.
  apply (default_ensure_all_from_empty (sample_env "") [] (PStr "cli-token")
           [(PStr "access_token", PStr ("tok-" ++ _mcp_client_id))]
           (PStr ("tok-" ++ _mcp_client_id))
           [(PStr "access_token", PStr ("tok-" ++ _client_id))]
           (PStr ("tok-" ++ _client_id))
           [(PStr "access_token", PStr ("tok-" ++ _sample_client_id))]
           (PStr ("tok-" ++ _sample_client_id)));
    reflexivity.
Defined.

Lemma simple_clear_cache_relogin_witness :
  (_ <-- SimpleAuth.clear_cache ;; DefaultAuthProvider.get_substrate_llm_token (sample_env ""))
    ([("substrate_llm", PStr "fresh")], [])
  = (Done (PStr ("tok-" ++ _sample_client_id)),
     ([("substrate_llm", PStr ("tok-" ++ _sample_client_id))],
      [EvAcquire _sample_client_id _substrate_llm_scopes])).
Proof.
  apply (simple_clear_cache_relogin "substrate_llm" _sample_client_id _substrate_llm_scopes
           DefaultAuthProvider.get_substrate_llm_token (sample_env "")
           [("substrate_llm", PStr "fresh")] []
           [(PStr "access_token", PStr ("tok-" ++ _sample_client_id))]).
  - cbn; auto.
  - reflexivity.
  - reflexivity.
Defined.

Lemma input_getter_prompts_witness :
  InputAuth.get_substrate_token (sample_env "") (InputAuth.init, [])
  = (Done (PStr "typed-token"),
     (InputAuth.set_substrate_token (PStr "typed-token") InputAuth.init,
      [EvInput "Enter Substrate token: "])).
Proof.
  apply (input_getter_prompts InputAuth.substrate_token InputAuth.set_substrate_token
           "Enter Substrate token: " InputAuth.get_substrate_token (sample_env "")
           InputAuth.init [] [] "typed-token").
  - cbn; auto.
  - left; split; reflexivity.
  - reflexivity.
Defined.

Lemma input_getter_cached_witness :
  InputAuth.get_graph_token (sample_env "")
    (InputAuth.set_graph_token (PStr "fresh") InputAuth.init, [])
  = (Done (PStr "fresh"), (InputAuth.set_graph_token (PStr "fresh") InputAuth.init, [EvTime])).
Proof.
  eapply (input_getter_cached InputAuth.graph_token InputAuth.set_graph_token
            "Enter Microsoft Graph token: " InputAuth.get_graph_token (sample_env "")
            (InputAuth.set_graph_token (PStr "fresh") InputAuth.init) []).
  - cbn; auto.
  - reflexivity.
  - reflexivity.
  - reflexivity.
  - reflexivity.
Defined.

Lemma shard_id_of_claims_witness :
  get_shard_id (sample_env "") (PStr "fresh") = Done "OID:u1@t1" /\
  get_user_id (sample_env "") (PStr "fresh") = Done (PStr "u1") /\
  get_tenant_id (sample_env "") (PStr "fresh") = Done (PStr "t1").
Proof.
  eapply (shard_id_of_claims (sample_env "") (PStr "fresh") _ "u1" "t1"); reflexivity.
Defined.

Lemma shard_id_oid_first_witness :
  let env := {| jwt_decode := fun _ => Done [(PStr "tid", PStr "t1")];
                clock := fun _ => PyFloat.of_Z 0;
                acquire_token_interactive := fun _ _ _ => Done [];
                cli_get_token := fun _ _ => Done PNone;
                input := fun _ _ => Done "" |} in
  get_shard_id env (PStr "tok") = Raised (ExcPy KeyError "'oid'") /\
  get_user_id env (PStr "tok") = Raised (ExcPy KeyError "'oid'").
Proof.
  intros env; eapply (shard_id_oid_first env (PStr "tok")); reflexivity.
Defined.

Lemma explain_prompt_frame_witness :
  let ki := PDict [(PStr "discarded", PList [PList []; PList []; PList []; PList []]);
                   (PStr "melded", PList [PList []; PList []; PList []; PList []]);
                   (PStr "discarded_type", PList [PList []; PList []; PList []; PList []]);
                   (PStr "melded_info", PList [PList []; PList []; PList []; PList []])] in
  exists p, explain_prompt sample_helper (PDict []) ki (PDict []) false 3 = Ok p /\
  exists mid, p = String.concat newline
                    (["你是一个专业的日本麻将高手，擅长分析和解读麻将游戏中的策略和技巧。";
                      "请基于下列牌局快照和AI推荐，简明扼要地解释AI给出概率的原因。"; ""]
                     ++ mid ++ [""; INSTRUCTIONS])%list.
Proof.
  intros ki.
  exists (match explain_prompt sample_helper (PDict []) ki (PDict []) false 3 with
          | Ok p => p | Err _ _ => "" end).
  split; [vm_compute; reflexivity|].
  apply (explain_prompt_frame sample_helper (PDict []) ki (PDict []) false 3).
  vm_compute; reflexivity.
Defined.

Lemma explain_sends_prompt_witness :
  let ki := PDict [(PStr "discarded", PList [PList []; PList []; PList []; PList []]);
                   (PStr "melded", PList [PList []; PList []; PList []; PList []]);
                   (PStr "discarded_type", PList [PList []; PList []; PList []; PList []]);
                   (PStr "melded_info", PList [PList []; PList []; PList []; PList []])] in
  let p := match explain_prompt sample_helper (PDict []) ki (PDict []) false 3 with
           | Ok p => p | Err _ _ => "" end in
  explain (fun msgs => Done (py_repr (PList msgs))) sample_helper (PDict []) ki (PDict [])
    false 3
  = Done (py_repr (PList [PDict [(PStr "role", PStr "system"); (PStr "content", PStr "")];
                          PDict [(PStr "role", PStr "user"); (PStr "content", PStr p)]])).
Proof.
  intros ki p.
  apply (explain_sends_prompt (fun msgs => Done (py_repr (PList msgs))) sample_helper
           (PDict []) ki (PDict []) false 3 p).
  vm_compute; reflexivity.
Defined.

Lemma action_to_nl_rendered_witness : action_to_nl (PStr "立直") = Ok (PStr "立直").
Proof.
  apply action_to_nl_rendered; left; apply in_app_iff; left; left; reflexivity.
Defined.

Lemma action_to_nl_tile_forms_witness :
  action_to_nl (PStr "5mr") = Ok (PStr (tile_nl "5mr")) /\
  action_to_nl (PList [PStr "5mr"; PInt 1]) = Ok (PStr (tile_nl "5mr")) /\
  action_to_nl (PTuple [PStr "5mr"; PInt 1]) = Ok (PStr (tile_nl "5mr")).
Proof. apply (action_to_nl_tile_forms "5mr" (PInt 1)); reflexivity. Defined.

Lemma action_to_nl_long_form_witness :
  action_to_nl (PList [PStr "pon"; PStr "E"]) = Ok (PStr ("碰" ++ " " ++ tile_nl "E")) /\
  action_to_nl (PTuple [PStr "pon"; PStr "E"]) = Ok (PStr ("碰" ++ " " ++ tile_nl "E")) /\
  action_to_nl (PDict [(PStr "type", PStr "pon"); (PStr "pai", PStr "E")])
    = Ok (PStr ("碰" ++ " " ++ tile_nl "E")) /\
  action_to_nl (PDict [(PStr "action", PStr "pon"); (PStr "tile", PStr "E")])
    = Ok (PStr ("碰" ++ " " ++ tile_nl "E")) /\
  action_to_nl (PList [PStr "pon"; PNone]) = Ok (PStr "碰").
Proof.
  apply (action_to_nl_long_form "pon" "碰" "E" []); [reflexivity|discriminate|discriminate].
Defined.

Lemma tile_list_single_strs_witness :
  tile_list_to_nl_single (PList (map PStr ["1m"; "zz"])) = String.concat "、" (map tile_nl ["1m"; "zz"]).
Proof. apply tile_list_single_strs; discriminate. Defined.

Lemma discard_pile_line_witness :
  tile_list_to_nl (PList (map PStr ["1m"; "E"])) (disc_type_to_nl (PList [PBool true; PBool false]))
  = String.concat "、" (map (fun p => discard_label (fst p) ++ tile_nl (snd p))
                           (combine [PBool true; PBool false] ["1m"; "E"])).
Proof. apply (discard_pile_line ["1m"; "E"] [PBool true; PBool false]); discriminate. Defined.

Lemma melds_lists_line_witness :
  melds_to_nl (PList (map (fun m => PList (map PStr m)) [["1m"; "2m"; "3m"]; ["E"; "E"; "E"]]))
    (PList [PStr "chi"])
  = Err IndexError "list index out of range".
Proof.
  apply (melds_lists_line [["1m"; "2m"; "3m"]; ["E"; "E"; "E"]] [PStr "chi"]); discriminate.
Defined.

Lemma melds_strs_line_witness :
  melds_to_nl (PList (map PStr ["pon E"; "chi 123m"])) PNone = Ok (String.concat "，" ["pon E"; "chi 123m"]).
Proof. apply melds_strs_line; discriminate. Defined.

Lemma melds_info_triples_witness :
  melds_info_to_nl (PList (map meld_info_item [("pon", 0, 2); ("chi", 1, 0); ("kan", 0, 7)]))
  = PList (map meld_info_text [("pon", 0, 2); ("chi", 1, 0); ("kan", 0, 7)]).
Proof. apply melds_info_triples; discriminate. Defined.

Lemma melds_info_bad_actor_witness :
  melds_info_to_nl (PList [PList [PStr "pon"; PNone; PInt 2]])
  = PList [PList [PStr "pon"; PNone; PInt 2]].
Proof. apply (melds_info_bad_actor "pon" PNone 2 []); [reflexivity|discriminate]. Defined.

Lemma fmt_prob_out_of_range_witness :
  fmt_prob (PFloat (PyFloat.of_Z 150)) = " (" ++ PyFloat.repr (PyFloat.of_Z 150) ++ ")".
Proof. apply fmt_prob_out_of_range; left; vm_compute; reflexivity. Defined.
